(** * Source formatting utilities of the research assistant

    A shallow embedding of [src/assistant/utils.py]:
    [deduplicate_and_format_sources] (lines 6-49) and [format_sources]
    (lines 51-63), together with the fragment of the Python runtime those two
    functions rely on.

    Conventions of the embedding.
    - Python values are the JSON-shaped ones the search clients hand over:
      [None], booleans, integers, strings, lists, and dicts with string keys.
      Floats, tuples, sets and bytes are outside the model; where the
      specification says sequence, the code tests [isinstance(_, list)].
    - A string is a [string] of the Standard Library; each character of the
      model stands for one Python character (code points below 256), so
      [String.length] is Python's [len].
    - A dict is an association list in insertion order.  Lookups take the first
      binding of a key; a dict built by Python binds each key once.
    - Integers are unbounded ([Z]); the interpreter's limit on the number of
      digits in an int-to-str conversion is not modelled.
    - An exception is a value of [exn]; code that may raise returns a
      [result].  [print] appends the text of one call to the standard
      output, which the [io] monad threads through the formatting loop; a
      text that holds newlines is one entry of the model and several lines
      of output.
    - [Py.str] converts every integer.  CPython 3.11 and later refuse to
      convert an integer of more than 4300 digits; module [Limited] embeds
      the formatting again with that limit, and agrees with [Utils] where no
      such integer is converted. *)

From Stdlib Require Import String Ascii List ZArith Bool Arith Lia DecimalString.
Import ListNotations.

Local Open Scope list_scope.
Local Open Scope string_scope.
Local Open Scope Z_scope.

(* ================================================================== *)
(** ** The Python fragment *)
(* ================================================================== *)

Module Py.

#[warnings="-register-all"]
Inductive value : Type :=
| VNone
| VBool (b : bool)
| VInt (n : Z)
| VStr (s : string)
| VList (items : list value)
| VDict (entries : list (string * value)).

(** The exceptions the two functions can raise.  [ValueError] carries its
    message, [KeyError] the missing key. *)
Inductive exn : Type :=
| ValueError (msg : string)
| KeyError (key : string)
| TypeError
| AttributeError.

Inductive result (A : Type) : Type :=
| Ok (a : A)
| Raise (e : exn).

Arguments Ok {A} a.
Arguments Raise {A} e.

Definition bind {A B : Type} (m : result A) (k : A -> result B) : result B :=
  match m with
  | Ok a => k a
  | Raise e => Raise e
  end.

Notation "x <- m ;; k" := (bind m (fun x => k))
  (at level 61, m at next level, right associativity).

(** *** Characters *)

Definition newline : ascii := ascii_of_nat 10.
Definition dquote : ascii := ascii_of_nat 34.
Definition squote : ascii := ascii_of_nat 39.
Definition backslash : ascii := ascii_of_nat 92.

Definition nl : string := String newline EmptyString.

Definition str1 (c : ascii) : string := String c EmptyString.

(** [str.isspace] on one character, for code points below 256. *)
Definition is_space (c : ascii) : bool :=
  let n := nat_of_ascii c in
  ((9 <=? n) && (n <=? 13) || (28 <=? n) && (n <=? 32)
   || (n =? 133) || (n =? 160))%nat.

(** *** Dicts *)

Fixpoint lookup (k : string) (d : list (string * value)) : option value :=
  match d with
  | [] => None
  | (k', v) :: rest => if String.eqb k k' then Some v else lookup k rest
  end.

(** [k in d] *)
Definition has_key (k : string) (d : list (string * value)) : bool :=
  match lookup k d with
  | Some _ => true
  | None => false
  end.

(** [v[k]] for a string subscript [k]: a dict lookup; strings and lists take
    integer subscripts only, the other values take none. *)
Definition getitem (v : value) (k : string) : result value :=
  match v with
  | VDict d =>
      match lookup k d with
      | Some x => Ok x
      | None => Raise (KeyError k)
      end
  | _ => Raise TypeError
  end.

(** [v.get(k, default)]: only dicts have the method. *)
Definition get (v : value) (k : string) (default : value) : result value :=
  match v with
  | VDict d =>
      match lookup k d with
      | Some x => Ok x
      | None => Ok default
      end
  | _ => Raise AttributeError
  end.

(** *** Iteration *)

Fixpoint chars (s : string) : list value :=
  match s with
  | EmptyString => []
  | String c rest => VStr (str1 c) :: chars rest
  end.

(** The items [for x in v] and [list.extend(v)] run over: the elements of a
    list, the characters of a string, the keys of a dict. *)
Definition iterate (v : value) : result (list value) :=
  match v with
  | VList items => Ok items
  | VStr s => Ok (chars s)
  | VDict d => Ok (map (fun kv => VStr (fst kv)) d)
  | _ => Raise TypeError
  end.

(** *** Hashing and key equality *)

Definition hashable (v : value) : bool :=
  match v with
  | VList _ | VDict _ => false
  | _ => true
  end.

Definition Z_of_bool (b : bool) : Z := if b then 1 else 0.

(** Equality of two hashable values as dict keys: [True == 1] and
    [False == 0]. *)
Definition key_eqb (a b : value) : bool :=
  match a, b with
  | VNone, VNone => true
  | VStr s, VStr t => String.eqb s t
  | VBool x, VBool y => Bool.eqb x y
  | VInt x, VInt y => Z.eqb x y
  | VBool x, VInt y => Z.eqb (Z_of_bool x) y
  | VInt x, VBool y => Z.eqb x (Z_of_bool y)
  | _, _ => false
  end.

(** *** [len], slicing, concatenation *)

Definition len (v : value) : result Z :=
  match v with
  | VStr s => Ok (Z.of_nat (String.length s))
  | VList items => Ok (Z.of_nat (List.length items))
  | VDict d => Ok (Z.of_nat (List.length d))
  | _ => Raise TypeError
  end.

(** The stop index of [x[:stop]] on a sequence of length [n]: a negative
    [stop] counts from the end, and the index is clamped to [0..n]. *)
Definition slice_stop (n : nat) (stop : Z) : nat :=
  Z.to_nat (if stop <? 0 then Z.max 0 (Z.of_nat n + stop)
            else Z.min stop (Z.of_nat n)).

(** [s[:stop]] on a string *)
Definition slice_to (s : string) (stop : Z) : string :=
  substring 0 (slice_stop (String.length s) stop) s.

(** [v[:stop] + suffix] for a string [suffix].  A list slice cannot be
    concatenated with a string, and a dict cannot be sliced ([TypeError] up
    to CPython 3.11, where a slice is unhashable). *)
Definition slice_concat (v : value) (stop : Z) (suffix : string) : result value :=
  match v with
  | VStr s => Ok (VStr (slice_to s stop ++ suffix))
  | _ => Raise TypeError
  end.

(** *** [str.strip()] *)

Fixpoint lstrip (s : string) : string :=
  match s with
  | EmptyString => EmptyString
  | String c rest => if is_space c then lstrip rest else s
  end.

Fixpoint rstrip (s : string) : string :=
  match s with
  | EmptyString => EmptyString
  | String c rest =>
      match rstrip rest with
      | EmptyString => if is_space c then EmptyString else str1 c
      | kept => String c kept
      end
  end.

Definition strip (s : string) : string := rstrip (lstrip s).

(** [sep.join(parts)] *)
Definition join (sep : string) (parts : list string) : string :=
  String.concat sep parts.

(** *** [repr] and [str] *)

Definition hex_digit (n : nat) : ascii :=
  match String.get n "0123456789abcdef" with
  | Some c => c
  | None => "0"%char
  end.

Definition hex_escape (c : ascii) : string :=
  let n := nat_of_ascii c in
  String backslash
    (String "x" (String (hex_digit (n / 16)) (str1 (hex_digit (n mod 16))))).

Fixpoint occurs (c : ascii) (s : string) : bool :=
  match s with
  | EmptyString => false
  | String c' rest => Ascii.eqb c c' || occurs c rest
  end.

(** One character of a string literal delimited by [quote].  Below 256 the
    unprintable code points are the controls, DEL, 0x80-0xa0 and 0xad. *)
Definition repr_char (quote c : ascii) : string :=
  let n := nat_of_ascii c in
  if Ascii.eqb c quote || Ascii.eqb c backslash then String backslash (str1 c)
  else if (n =? 9)%nat then String backslash "t"
  else if (n =? 10)%nat then String backslash "n"
  else if (n =? 13)%nat then String backslash "r"
  else if ((n <? 32) || (n =? 127))%nat then hex_escape c
  else if (n <? 127)%nat then str1 c
  else if ((n <=? 160) || (n =? 173))%nat then hex_escape c
  else str1 c.

Fixpoint repr_chars (quote : ascii) (s : string) : string :=
  match s with
  | EmptyString => EmptyString
  | String c rest => repr_char quote c ++ repr_chars quote rest
  end.

(** Python quotes with an apostrophe unless the text holds one and no double
    quote. *)
Definition repr_str (s : string) : string :=
  let quote := if occurs squote s && negb (occurs dquote s) then dquote
               else squote in
  String quote (repr_chars quote s ++ str1 quote).

Definition str_of_int (n : Z) : string := NilZero.string_of_int (Z.to_int n).

Fixpoint repr (v : value) : string :=
  match v with
  | VNone => "None"
  | VBool b => if b then "True" else "False"
  | VInt n => str_of_int n
  | VStr s => repr_str s
  | VList items => "[" ++ join ", " (map repr items) ++ "]"
  | VDict d =>
      "{" ++ join ", " (map (fun kv => match kv with
                                      | (k, x) => repr_str k ++ ": " ++ repr x
                                      end) d) ++ "}"
  end.

(** [str(v)], which is what an f-string field [{v}] inserts. *)
Definition str (v : value) : string :=
  match v with
  | VStr s => s
  | _ => repr v
  end.

End Py.

(* ================================================================== *)
(** ** [assistant/utils.py] *)
(* ================================================================== *)

Module Utils.
Import Py.

(** *** Standard output

    A computation of the formatting phase: it reads the lines printed so far
    and gives back the lines printed afterwards, with a value or the exception
    raised.  What was printed before an exception stays printed.  One entry
    of the list is the text of one call of [print]. *)

Definition io (A : Type) : Type := list string -> list string * result A.

Definition ret {A : Type} (a : A) : io A := fun out => (out, Ok a).

Definition lift {A : Type} (r : result A) : io A := fun out => (out, r).

Definition print (line : string) : io unit :=
  fun out => ((out ++ [line])%list, Ok tt).

Definition iobind {A B : Type} (m : io A) (k : A -> io B) : io B :=
  fun out =>
    match m out with
    | (out', Ok a) => k a out'
    | (out', Raise e) => (out', Raise e)
    end.

Notation "x <~ m ;; k" := (iobind m (fun x => k))
  (at level 61, m at next level, right associativity).

(** *** Lines 12-23: convert the input to a list of results *)

Definition input_error : string :=
  "Input must be either a dict with 'results' or a list of search results".

(** Lines 17-21: the loop over the responses of a list input.  A dict that
    has a [results] key contributes [response['results']]; anything else is
    handed to [extend] as it is. *)
Fixpoint extend_responses (responses sources_list : list value)
  : result (list value) :=
  match responses with
  | [] => Ok sources_list
  | response :: rest =>
      items <- match response with
               | VDict d =>
                   if has_key "results" d
                   then (results <- getitem response "results" ;;
                         iterate results)
                   else iterate response
               | _ => iterate response
               end ;;
      extend_responses rest (sources_list ++ items)%list
  end.

Definition normalize (search_response : value) : result value :=
  match search_response with
  | VDict _ => getitem search_response "results"
  | VList responses =>
      sources_list <- extend_responses responses [] ;;
      Ok (VList sources_list)
  | _ => Raise (ValueError input_error)
  end.

(** *** Lines 25-29: deduplicate by URL

    [unique_sources] is a dict keyed by url; the model keeps its bindings in
    insertion order, which is the order of [unique_sources.values()]. *)

Definition url_dict : Type := list (value * value).

(** [key in unique_sources] *)
Definition contains (key : value) (unique_sources : url_dict) : bool :=
  existsb (fun kv => key_eqb key (fst kv)) unique_sources.

Fixpoint dedupe_loop (sources : list value) (unique_sources : url_dict)
  : result url_dict :=
  match sources with
  | [] => Ok unique_sources
  | source :: rest =>
      url <- getitem source "url" ;;
      if hashable url then
        if contains url unique_sources
        then dedupe_loop rest unique_sources
        else dedupe_loop rest (unique_sources ++ [(url, source)])%list
      else Raise TypeError
  end.

Definition deduplicate (sources_list : value) : result url_dict :=
  sources <- iterate sources_list ;;
  dedupe_loop sources [].

(** *** Lines 31-49: format the output *)

Definition header : string := "Sources:" ++ nl ++ nl.

Definition truncation_marker : string := "... [truncated]".

(** Lines 34-36: the three lines every source gets. *)
Definition format_fields (formatted_text : string) (source : value)
  : result string :=
  title <- getitem source "title" ;;
  let formatted_text :=
    formatted_text ++ "Source " ++ str title ++ ":" ++ nl ++ "===" ++ nl in
  url <- getitem source "url" ;;
  let formatted_text :=
    formatted_text ++ "URL: " ++ str url ++ nl ++ "===" ++ nl in
  content <- getitem source "content" ;;
  Ok (formatted_text ++ "Most relevant content from source: " ++ str content
        ++ nl ++ "===" ++ nl).

(** Lines 39-47: the raw-content section. *)
Definition format_raw_content (formatted_text : string) (source : value)
    (max_tokens_per_source : Z) : io string :=
  let char_limit := max_tokens_per_source * 4 in
  raw_content <~ lift (get source "raw_content" (VStr EmptyString)) ;;
  raw_content <~ match raw_content with
                 | VNone =>
                     url <~ lift (getitem source "url") ;;
                     _ <~ print ("Warning: No raw_content found for source "
                                 ++ str url) ;;
                     ret (VStr EmptyString)
                 | _ => ret raw_content
                 end ;;
  n <~ lift (len raw_content) ;;
  raw_content <~ (if n >? char_limit
                  then lift (slice_concat raw_content char_limit
                               truncation_marker)
                  else ret raw_content) ;;
  ret (formatted_text ++ "Full source content limited to "
         ++ str (VInt max_tokens_per_source) ++ " tokens: "
         ++ str raw_content ++ nl ++ nl).

(** Lines 34-47: the body of the loop, for one source. *)
Definition format_source (formatted_text : string) (source : value)
    (max_tokens_per_source : Z) (include_raw_content : bool) : io string :=
  formatted_text <~ lift (format_fields formatted_text source) ;;
  if include_raw_content
  then format_raw_content formatted_text source max_tokens_per_source
  else ret formatted_text.

Fixpoint format_loop (formatted_text : string) (sources : list value)
    (max_tokens_per_source : Z) (include_raw_content : bool) : io string :=
  match sources with
  | [] => ret formatted_text
  | source :: rest =>
      formatted_text <~ format_source formatted_text source
                          max_tokens_per_source include_raw_content ;;
      format_loop formatted_text rest max_tokens_per_source
        include_raw_content
  end.

(** Lines 31-49, over the values of [unique_sources]. *)
Definition format (unique_sources : list value) (max_tokens_per_source : Z)
    (include_raw_content : bool) : io string :=
  formatted_text <~ format_loop header unique_sources max_tokens_per_source
                      include_raw_content ;;
  ret (strip formatted_text).

Definition deduplicate_and_format_sources (search_response : value)
    (max_tokens_per_source : Z) (include_raw_content : bool) : io string :=
  sources_list <~ lift (normalize search_response) ;;
  unique_sources <~ lift (deduplicate sources_list) ;;
  format (map snd unique_sources) max_tokens_per_source include_raw_content.

(** What a call prints and what it returns, from an empty standard output. *)
Definition run {A : Type} (m : io A) : list string * result A := m [].

(** *** Lines 51-63: [format_sources] *)

(** The generator of line 61-62, evaluated in order by [join]. *)
Fixpoint bullet_lines (sources : list value) : result (list string) :=
  match sources with
  | [] => Ok []
  | source :: rest =>
      title <- getitem source "title" ;;
      url <- getitem source "url" ;;
      lines <- bullet_lines rest ;;
      Ok (("* " ++ str title ++ " : " ++ str url) :: lines)
  end.

Definition format_sources (search_results : value) : result string :=
  results <- getitem search_results "results" ;;
  sources <- iterate results ;;
  lines <- bullet_lines sources ;;
  Ok (join nl lines).

End Utils.

(* ================================================================== *)
(** ** The search clients of [assistant/utils.py] *)
(* ================================================================== *)

(** [searxng_search] (lines 65-124) and [perplexity_search] (lines 126-176)
    as functions of what the network answers.  The request itself (the query,
    the parameters, the headers) only goes out; what comes back is an
    argument of the model:
    - [http_reply] is the outcome of the search request up to
      [response.json()]: the decoded body, or a [RequestException] raised by
      the request, by [raise_for_status] or by the decoding, with the text
      [str(e)];
    - [fetch_reply] is the outcome of one [requests.get(url, timeout=5)] of
      line 112: a status code and a text, or an exception with its text.  The
      replies are indexed by the position of the result in the loop and by
      the url asked for, so that no assumption is made on the network.
    A body that cannot be decoded counts as a failed request (it raises a
    [RequestException] from requests 2.27 on).  The [traceable] decorator
    does not change what the functions return. *)

Module Clients.
Import Py Utils.

Inductive http_reply : Type :=
| Failed (message : string)
| Body (json : value).

Inductive fetch_reply : Type :=
| FetchFailed (message : string)
| Fetched (status_code : Z) (text : string).

(** [d[k] = v]: an existing key keeps its place. *)
Fixpoint setitem (k : string) (v : value) (d : list (string * value))
  : list (string * value) :=
  match d with
  | [] => [(k, v)]
  | (k', x) :: rest =>
      if String.eqb k k' then (k', v) :: rest
      else (k', x) :: setitem k v rest
  end.

(** The items of [for x in v[:stop]]. *)
Definition slice_items (v : value) (stop : Z) : result (list value) :=
  match v with
  | VList items => Ok (firstn (slice_stop (List.length items) stop) items)
  | VStr s => Ok (chars (slice_to s stop))
  | _ => Raise TypeError
  end.

(** *** Lines 65-124: [searxng_search] *)

(** Lines 102-118: one result of the body, the [i]-th of the loop. *)
Definition transform_result (fetch : nat -> value -> fetch_reply) (i : nat)
    (include_raw_content : bool) (result : value) : io value :=
  title <~ lift (get result "title" (VStr EmptyString)) ;;
  url <~ lift (get result "url" (VStr EmptyString)) ;;
  content <~ lift (get result "content" (VStr EmptyString)) ;;
  let formatted_result :=
    [("title", title); ("url", url); ("content", content);
     ("raw_content", VNone)] in
  if include_raw_content then
    match fetch i url with
    | Fetched status_code text =>
        if status_code =? 200
        then ret (VDict (setitem "raw_content" (VStr text) formatted_result))
        else ret (VDict formatted_result)
    | FetchFailed message =>
        _ <~ print ("Failed to fetch raw content for " ++ str url ++ ": "
                    ++ message) ;;
        ret (VDict formatted_result)
    end
  else ret (VDict formatted_result).

(** Lines 100-118: the loop, from the [i]-th result on. *)
Fixpoint transform_results (fetch : nat -> value -> fetch_reply) (i : nat)
    (include_raw_content : bool) (results formatted_results : list value)
  : io (list value) :=
  match results with
  | [] => ret formatted_results
  | result :: rest =>
      formatted_result <~ transform_result fetch i include_raw_content
                            result ;;
      transform_results fetch (S i) include_raw_content rest
        (formatted_results ++ [formatted_result])%list
  end.

(** The defaults of the source are [include_raw_content=True] and
    [max_results=3]. *)
Definition searxng_search (fetch : nat -> value -> fetch_reply)
    (reply : http_reply) (include_raw_content : bool) (max_results : Z)
  : io value :=
  match reply with
  | Failed message =>
      _ <~ print ("Error searching SearxNG: " ++ message) ;;
      ret (VDict [("results", VList [])])
  | Body search_results =>
      results <~ lift (get search_results "results" (VList [])) ;;
      results <~ lift (slice_items results max_results) ;;
      formatted_results <~ transform_results fetch 0 include_raw_content
                             results [] ;;
      ret (VDict [("results", VList formatted_results)])
  end.

(** *** Lines 126-176: [perplexity_search] *)

(** What [perplexity_search] can raise: the exceptions of the fragment, the
    [IndexError] of [x[0]] on an empty sequence, the [KeyError] of a dict
    subscripted by an integer, and what the request raises. *)
Inductive error : Type :=
| Builtin (e : exn)
| IndexError
| IntKeyError (key : Z)
| RequestException (message : string).

Inductive outcome (A : Type) : Type :=
| Returns (a : A)
| Raises (e : error).

Arguments Returns {A} a.
Arguments Raises {A} e.

Definition obind {A B : Type} (m : outcome A) (k : A -> outcome B)
  : outcome B :=
  match m with
  | Returns a => k a
  | Raises e => Raises e
  end.

Definition builtin {A : Type} (r : result A) : outcome A :=
  match r with
  | Ok a => Returns a
  | Raise e => Raises (Builtin e)
  end.

Notation "x <-- m ;; k" := (obind m (fun x => k))
  (at level 61, m at next level, right associativity).

(** [v[0]] *)
Definition first_item (v : value) : outcome value :=
  match v with
  | VList (x :: _) => Returns x
  | VList [] => Raises IndexError
  | VStr (String c _) => Returns (VStr (str1 c))
  | VStr EmptyString => Raises IndexError
  | VDict _ => Raises (IntKeyError 0)
  | _ => Raises (Builtin TypeError)
  end.

(** The items of [for x in v[1:]]. *)
Definition items_after_first (v : value) : outcome (list value) :=
  match v with
  | VList items => Returns (tl items)
  | VStr (String _ rest) => Returns (chars rest)
  | VStr EmptyString => Returns []
  | _ => Raises (Builtin TypeError)
  end.

Definition default_citation : string := "https://perplexity.ai".

Definition source_title (perplexity_search_loop_count i : Z) : string :=
  "Perplexity Search " ++ str_of_int (perplexity_search_loop_count + 1)
  ++ ", Source " ++ str_of_int i.

(** Lines 168-174: the loop over the citations after the first, numbered
    from [i]. *)
Fixpoint append_citations (perplexity_search_loop_count i : Z)
    (citations results : list value) : list value :=
  match citations with
  | [] => results
  | citation :: rest =>
      append_citations perplexity_search_loop_count (i + 1) rest
        (results
         ++ [VDict [("title",
                     VStr (source_title perplexity_search_loop_count i));
                    ("url", citation);
                    ("content", VStr "See above for full content");
                    ("raw_content", VNone)]])%list
  end.

Definition perplexity_search (reply : http_reply)
    (perplexity_search_loop_count : Z) : outcome value :=
  match reply with
  | Failed message => Raises (RequestException message)
  | Body data =>
      choices <-- builtin (getitem data "choices") ;;
      choice <-- first_item choices ;;
      message <-- builtin (getitem choice "message") ;;
      content <-- builtin (getitem message "content") ;;
      citations <-- builtin (get data "citations"
                               (VList [VStr default_citation])) ;;
      url <-- first_item citations ;;
      results <-- Returns
                    [VDict [("title",
                             VStr (source_title perplexity_search_loop_count
                                     1));
                            ("url", url);
                            ("content", content);
                            ("raw_content", content)]] ;;
      others <-- items_after_first citations ;;
      Returns (VDict [("results",
                       VList (append_citations perplexity_search_loop_count
                                2 others results))])
  end.

End Clients.

(* ================================================================== *)
(** ** The formatting under the limit on integer conversions *)
(* ================================================================== *)

(** CPython 3.11 and later raise [ValueError] when [str], [repr] or an
    f-string field converts an integer of more than 4300 digits (the sign not
    counted); the text of the message varies with the version.  Lines 31-49
    convert the title, the url and the content of every source (lines 34-36)
    and, when [include_raw_content] is set, the url of a source without raw
    content (line 44), the budget and the raw content (line 47).  This module
    embeds lines 31-49 again with the conversions that may raise;
    lines 12-29 convert nothing, so [normalize] and [deduplicate] are those of
    [Utils]. *)

Module Limited.
Import Py Utils.

Definition max_str_digits : Z := 4300.

Definition digits_error : string :=
  "Exceeds the limit (4300 digits) for integer string conversion".

(** No integer inside the value has more than [max_str_digits] digits. *)
Fixpoint convertible (v : value) : bool :=
  match v with
  | VInt n => Z.abs n <? 10 ^ max_str_digits
  | VList items => forallb convertible items
  | VDict d =>
      forallb (fun kv => match kv with
                         | (_, x) => convertible x
                         end) d
  | _ => true
  end.

(** [str(v)] and the f-string field [{v}]. *)
Definition str (v : value) : result string :=
  if convertible v then Ok (Py.str v) else Raise (ValueError digits_error).

(** Lines 34-36. *)
Definition format_fields (formatted_text : string) (source : value)
  : result string :=
  title <- getitem source "title" ;;
  title <- str title ;;
  let formatted_text :=
    formatted_text ++ "Source " ++ title ++ ":" ++ nl ++ "===" ++ nl in
  url <- getitem source "url" ;;
  url <- str url ;;
  let formatted_text :=
    formatted_text ++ "URL: " ++ url ++ nl ++ "===" ++ nl in
  content <- getitem source "content" ;;
  content <- str content ;;
  Ok (formatted_text ++ "Most relevant content from source: " ++ content
        ++ nl ++ "===" ++ nl).

(** Lines 39-47. *)
Definition format_raw_content (formatted_text : string) (source : value)
    (max_tokens_per_source : Z) : io string :=
  let char_limit := max_tokens_per_source * 4 in
  raw_content <~ lift (get source "raw_content" (VStr EmptyString)) ;;
  raw_content <~ match raw_content with
                 | VNone =>
                     url <~ lift (getitem source "url") ;;
                     url <~ lift (str url) ;;
                     _ <~ print ("Warning: No raw_content found for source "
                                 ++ url) ;;
                     ret (VStr EmptyString)
                 | _ => ret raw_content
                 end ;;
  n <~ lift (len raw_content) ;;
  raw_content <~ (if n >? char_limit
                  then lift (slice_concat raw_content char_limit
                               truncation_marker)
                  else ret raw_content) ;;
  budget <~ lift (str (VInt max_tokens_per_source)) ;;
  raw_content <~ lift (str raw_content) ;;
  ret (formatted_text ++ "Full source content limited to " ++ budget
         ++ " tokens: " ++ raw_content ++ nl ++ nl).

(** Lines 34-47. *)
Definition format_source (formatted_text : string) (source : value)
    (max_tokens_per_source : Z) (include_raw_content : bool) : io string :=
  formatted_text <~ lift (format_fields formatted_text source) ;;
  if include_raw_content
  then format_raw_content formatted_text source max_tokens_per_source
  else ret formatted_text.

Fixpoint format_loop (formatted_text : string) (sources : list value)
    (max_tokens_per_source : Z) (include_raw_content : bool) : io string :=
  match sources with
  | [] => ret formatted_text
  | source :: rest =>
      formatted_text <~ format_source formatted_text source
                          max_tokens_per_source include_raw_content ;;
      format_loop formatted_text rest max_tokens_per_source
        include_raw_content
  end.

(** Lines 31-49. *)
Definition format (unique_sources : list value) (max_tokens_per_source : Z)
    (include_raw_content : bool) : io string :=
  formatted_text <~ format_loop header unique_sources max_tokens_per_source
                      include_raw_content ;;
  ret (strip formatted_text).

Definition deduplicate_and_format_sources (search_response : value)
    (max_tokens_per_source : Z) (include_raw_content : bool) : io string :=
  sources_list <~ lift (normalize search_response) ;;
  unique_sources <~ lift (deduplicate sources_list) ;;
  format (map snd unique_sources) max_tokens_per_source include_raw_content.

End Limited.

(* ================================================================== *)
(** ** The shape of a search result *)
(* ================================================================== *)

Import Py Utils.

(** The fields the search clients fill in (lines 102-107 and 161-174):
    [title], [url] and [content] are strings; [raw_content] is a string or
    [None], and may be missing altogether. *)

Definition text_field (k : string) (v : value) : option string :=
  match v with
  | VDict d =>
      match lookup k d with
      | Some (VStr s) => Some s
      | _ => None
      end
  | _ => None
  end.

Definition field_text (k : string) (v : value) : string :=
  match text_field k v with
  | Some s => s
  | None => EmptyString
  end.

Definition title_of : value -> string := field_text "title".
Definition url_of : value -> string := field_text "url".
Definition content_of : value -> string := field_text "content".

Definition has_text (k : string) (v : value) : bool :=
  match text_field k v with
  | Some _ => true
  | None => false
  end.

(** A record with its three text fields, whatever [raw_content] is. *)
Definition is_source (v : value) : bool :=
  has_text "title" v && has_text "url" v && has_text "content" v.

Inductive raw_kind : Type :=
| RawAbsent
| RawNull
| RawText (s : string)
| RawOther.

Definition raw_content_of (v : value) : raw_kind :=
  match v with
  | VDict d =>
      match lookup "raw_content" d with
      | None => RawAbsent
      | Some VNone => RawNull
      | Some (VStr s) => RawText s
      | Some _ => RawOther
      end
  | _ => RawOther
  end.

Definition raw_content_ok (v : value) : bool :=
  match raw_content_of v with
  | RawOther => false
  | _ => true
  end.

Definition is_search_result (v : value) : bool :=
  is_source v && raw_content_ok v.

(** A search response: a dict whose [results] is a list. *)
Definition response_of (results : list value) (v : value) : Prop :=
  exists d, v = VDict d /\ lookup "results" d = Some (VList results).

(** The records kept by a deduplication that keeps, for each url, the first
    record bearing it: the head, then what the tail keeps of the other
    urls. *)
Fixpoint first_occurrences (sources : list value) : list value :=
  match sources with
  | [] => []
  | s :: rest =>
      s :: filter (fun x => negb (String.eqb (url_of x) (url_of s)))
             (first_occurrences rest)
  end.

Definition entry (source : value) : value * value :=
  (VStr (url_of source), source).

Definition unseen (seen : list string) (source : value) : bool :=
  negb (existsb (String.eqb (url_of source)) seen).

(* ================================================================== *)
(** ** What the formatter writes for a search result *)
(* ================================================================== *)

(** The first [n] characters of a string. *)
Fixpoint first_chars (n : nat) (s : string) : string :=
  match n, s with
  | S m, String c rest => String c (first_chars m rest)
  | _, _ => EmptyString
  end.

(** Neither end of the text is a whitespace character. *)
Definition trimmed (s : string) : Prop :=
  (forall c rest, s = String c rest -> is_space c = false)
  /\ (forall front c, s = front ++ str1 c -> is_space c = false).

(** The concatenation of the blocks of a text. *)
Fixpoint text_of (blocks : list string) : string :=
  match blocks with
  | [] => EmptyString
  | b :: rest => b ++ text_of rest
  end.

(** The three lines of a source: title, url and snippet. *)
Definition fields_block (source : value) : string :=
  "Source " ++ title_of source ++ ":" ++ nl ++ "===" ++ nl
  ++ "URL: " ++ url_of source ++ nl ++ "===" ++ nl
  ++ "Most relevant content from source: " ++ content_of source
  ++ nl ++ "===" ++ nl.

Definition raw_heading (max_tokens_per_source : Z) : string :=
  "Full source content limited to " ++ str_of_int max_tokens_per_source
  ++ " tokens: ".

(** Lines 45-46 on a string, for any integer budget. *)
Definition limit_raw (max_tokens_per_source : Z) (raw : string) : string :=
  if Z.of_nat (String.length raw) >? max_tokens_per_source * 4
  then slice_to raw (max_tokens_per_source * 4) ++ truncation_marker
  else raw.

(** The raw content cut to a budget of characters, in the words of the
    specification: unmodified within the budget, else its first [budget]
    characters and the marker. *)
Definition truncated_to (budget : nat) (raw : string) : string :=
  if (String.length raw <=? budget)%nat then raw
  else first_chars budget raw ++ "... [truncated]".

(** The raw content after line 43: a missing or null one is the empty
    string. *)
Definition resolved_raw (source : value) : string :=
  match raw_content_of source with
  | RawText raw => raw
  | _ => EmptyString
  end.

Definition emitted_raw (max_tokens_per_source : Z) (source : value) : string :=
  limit_raw max_tokens_per_source (resolved_raw source).

Definition raw_section (max_tokens_per_source : Z) (source : value) : string :=
  raw_heading max_tokens_per_source
  ++ emitted_raw max_tokens_per_source source ++ nl ++ nl.

Definition warning (source : value) : string :=
  "Warning: No raw_content found for source " ++ url_of source.

(** What the formatting of one source prints. *)
Definition warnings_of (source : value) : list string :=
  match raw_content_of source with
  | RawNull => [warning source]
  | _ => []
  end.

Definition block (max_tokens_per_source : Z) (include_raw_content : bool)
    (source : value) : string :=
  fields_block source
  ++ (if include_raw_content then raw_section max_tokens_per_source source
      else EmptyString).

Definition printed (include_raw_content : bool) (sources : list value)
  : list string :=
  if include_raw_content then flat_map warnings_of sources else [].

(** One line of [format_sources]. *)
Definition bullet (source : value) : string :=
  "* " ++ title_of source ++ " : " ++ url_of source.

(** An element of a list input that the loop of lines 17-21 flattens to
    [results]: a search response, or a list of results. *)
Definition batch_of (results : list value) (v : value) : Prop :=
  response_of results v \/ v = VList results.

(** A record that has the three fields, whatever they hold, and whose
    [raw_content] is a string, [None] or missing. *)
Definition well_formed_source (v : value) : bool :=
  match v with
  | VDict d =>
      has_key "title" d && has_key "url" d && has_key "content" d
      && raw_content_ok v
  | _ => false
  end.

(** The block of a source with its raw content cut to the budget, in the
    words of the specification. *)
Definition raw_block (max_tokens_per_source : Z) (source : value) : string :=
  fields_block source ++ raw_heading max_tokens_per_source
  ++ truncated_to (Z.to_nat (max_tokens_per_source * 4))
       (resolved_raw source)
  ++ nl ++ nl.

(** A source whose [raw_content] is there and is [None]. *)
Definition has_null_raw_content (source : value) : bool :=
  match raw_content_of source with
  | RawNull => true
  | _ => false
  end.

(** The value under a key, when there is one, holds no integer beyond the
    limit on conversions. *)
Definition convertible_at (k : string) (d : list (string * value)) : bool :=
  match lookup k d with
  | Some x => Limited.convertible x
  | None => true
  end.

(** No field the formatting converts holds an integer beyond the limit. *)
Definition printable (source : value) : bool :=
  match source with
  | VDict d =>
      convertible_at "title" d && convertible_at "url" d
      && convertible_at "content" d && convertible_at "raw_content" d
  | _ => true
  end.

(** *** The scenarios of the specification *)

Definition source_A : value :=
  VDict [("title", VStr "A"); ("url", VStr "u1"); ("content", VStr "c1")].

Definition source_A2 : value :=
  VDict [("title", VStr "A2"); ("url", VStr "u1"); ("content", VStr "c2");
         ("raw_content", VNone)].

Definition thirty_a : string := "aaaaaaaaaaaaaaaaaaaaaaaaaaaaaa".

Definition source_B : value :=
  VDict [("title", VStr "B"); ("url", VStr "u2"); ("content", VStr "c3");
         ("raw_content", VStr thirty_a)].

Definition response (results : list value) : value :=
  VDict [("results", VList results)].

(** A source whose raw content ends in whitespace, and one whose title is an
    integer of 4301 digits. *)
Definition source_padded : value :=
  VDict [("title", VStr "P"); ("url", VStr "u9"); ("content", VStr "c9");
         ("raw_content", VStr ("abc " ++ nl))].

(** A later record with the url of [source_A] and a raw content of its
    own. *)
Definition source_A3 : value :=
  VDict [("title", VStr "A3"); ("url", VStr "u1"); ("content", VStr "c4");
         ("raw_content", VStr "zzz")].

Definition source_numbered : value :=
  VDict [("title", VInt (10 ^ Limited.max_str_digits)); ("url", VStr "u8");
         ("content", VStr "c8")].

Definition two_responses : value :=
  VList [response [source_A]; response [source_A2; source_B]].

(* ================================================================== *)
(** ** What the clients make of a reply *)
(* ================================================================== *)

Import Clients.

Definition warning_prefix : string :=
  "Warning: No raw_content found for source ".

(** What a step of the formatting does to the output and to the text: it
    prints [lines], all of them warnings, and extends the text. *)
Definition extends (text : string) (out : list string)
    (step : list string * result string) : Prop :=
  (exists lines,
      fst step = (out ++ lines)%list
      /\ Forall (fun line => prefix warning_prefix line = true) lines)
  /\ (forall text', snd step = Ok text' -> exists added, text' = text ++ added).

(** A field of a result of the body, as line 103-105 read it. *)
Definition field_or_empty (k : string) (d : list (string * value)) : value :=
  match lookup k d with
  | Some x => x
  | None => VStr EmptyString
  end.

(** The [raw_content] of the [i]-th result: the text of the page when the
    page was asked for and came back with status 200, else [None]. *)
Definition fetched_raw_content (fetch : nat -> value -> fetch_reply)
    (i : nat) (include_raw_content : bool) (d : list (string * value))
  : value :=
  if include_raw_content then
    match fetch i (field_or_empty "url" d) with
    | Fetched status_code text =>
        if status_code =? 200 then VStr text else VNone
    | FetchFailed _ => VNone
    end
  else VNone.

Definition formatted_hit (fetch : nat -> value -> fetch_reply) (i : nat)
    (include_raw_content : bool) (d : list (string * value)) : value :=
  VDict [("title", field_or_empty "title" d);
         ("url", field_or_empty "url" d);
         ("content", field_or_empty "content" d);
         ("raw_content", fetched_raw_content fetch i include_raw_content d)].

(** What the [i]-th result prints: one line when its page was asked for and
    the request raised. *)
Definition fetch_failure (fetch : nat -> value -> fetch_reply) (i : nat)
    (include_raw_content : bool) (d : list (string * value)) : list string :=
  if include_raw_content then
    match fetch i (field_or_empty "url" d) with
    | FetchFailed message =>
        ["Failed to fetch raw content for " ++ str (field_or_empty "url" d)
         ++ ": " ++ message]
    | Fetched _ _ => []
    end
  else [].

Fixpoint formatted_from (fetch : nat -> value -> fetch_reply) (i : nat)
    (include_raw_content : bool) (ds : list (list (string * value)))
  : list value :=
  match ds with
  | [] => []
  | d :: rest =>
      formatted_hit fetch i include_raw_content d
      :: formatted_from fetch (S i) include_raw_content rest
  end.

Fixpoint failures_from (fetch : nat -> value -> fetch_reply) (i : nat)
    (include_raw_content : bool) (ds : list (list (string * value)))
  : list string :=
  match ds with
  | [] => []
  | d :: rest =>
      (fetch_failure fetch i include_raw_content d
       ++ failures_from fetch (S i) include_raw_content rest)%list
  end.

(** A field that is a string, or missing. *)
Definition text_or_missing (k : string) (d : list (string * value)) : bool :=
  match lookup k d with
  | None | Some (VStr _) => true
  | Some _ => false
  end.

(** A result of the body whose three fields are strings or missing. *)
Definition is_hit (d : list (string * value)) : bool :=
  text_or_missing "title" d && text_or_missing "url" d
  && text_or_missing "content" d.

(** The source [perplexity_search] makes of a citation after the first. *)
Definition cited (perplexity_search_loop_count i : Z) (citation : value)
  : value :=
  VDict [("title", VStr (source_title perplexity_search_loop_count i));
         ("url", citation);
         ("content", VStr "See above for full content");
         ("raw_content", VNone)].

(** The source it makes of the answer and the first citation. *)
Definition answered (perplexity_search_loop_count : Z) (url content : value)
  : value :=
  VDict [("title", VStr (source_title perplexity_search_loop_count 1));
         ("url", url);
         ("content", content);
         ("raw_content", content)].

Fixpoint cited_from (perplexity_search_loop_count i : Z)
    (citations : list value) : list value :=
  match citations with
  | [] => []
  | citation :: rest =>
      cited perplexity_search_loop_count i citation
      :: cited_from perplexity_search_loop_count (i + 1) rest
  end.

(** A body of the chat-completions API: an answer under
    [choices[0].message.content] and, maybe, citations. *)
Definition answer_of (data : list (string * value)) (content : value)
  : Prop :=
  exists choice other_choices message,
    lookup "choices" data = Some (VList (VDict choice :: other_choices))
    /\ lookup "message" choice = Some (VDict message)
    /\ lookup "content" message = Some content.

(** *** A reply of the meta-search engine and one of the chat API *)

Definition two_hits : list (list (string * value)) :=
  [[("title", VStr "T1"); ("url", VStr "http://a"); ("score", VInt 2)];
   [("url", VStr "http://b"); ("content", VStr "snippet")]].

Definition one_page (i : nat) (url : value) : fetch_reply :=
  match i with
  | O => Fetched 200 "page"
  | _ => FetchFailed "timed out"
  end.

Definition chat_body (citations : list value) : list (string * value) :=
  [("choices",
    VList [VDict [("message", VDict [("content", VStr "answer")])]]);
   ("citations", VList citations)].

(* ================================================================== *)
(** ** Deduplication *)
(* ================================================================== *)

Section Dedupe.

Lemma source_url (s : value) :
  is_source s = true -> getitem s "url" = Ok (VStr (url_of s)).
Proof.
  unfold is_source, has_text, url_of, field_text, text_field, getitem.
  destruct s; try discriminate.
  destruct (lookup "url" entries) as [[]|]; simpl;
    rewrite ?andb_false_r; try discriminate; reflexivity.
Qed.

Lemma contains_entries (u : string) (kept : list value) :
  contains (VStr u) (map entry kept)
  = existsb (String.eqb u) (map url_of kept).
Proof.
  unfold contains.
  induction kept as [|k kept IH]; [reflexivity|].
  cbn [map existsb entry fst key_eqb]. f_equal. exact IH.
Qed.

Lemma filter_filter {A : Type} (p q : A -> bool) (l : list A) :
  filter p (filter q l) = filter (fun x => q x && p x) l.
Proof.
  induction l as [|a l IH]; simpl; [reflexivity|].
  destruct (q a); simpl; [destruct (p a)|]; now rewrite IH.
Qed.

Lemma unseen_snoc (seen : list string) (u : string) (x : value) :
  unseen (seen ++ [u])%list x
  = negb (String.eqb (url_of x) u) && unseen seen x.
Proof.
  unfold unseen. rewrite existsb_app. simpl. rewrite orb_false_r.
  rewrite negb_orb. apply andb_comm.
Qed.

Lemma seen_absorbs (seen : list string) (u : string) (x : value) :
  existsb (String.eqb u) seen = true ->
  negb (String.eqb (url_of x) u) && unseen seen x = unseen seen x.
Proof.
  intros Hin. unfold unseen.
  destruct (String.eqb (url_of x) u) eqn:E; simpl; [|reflexivity].
  apply String.eqb_eq in E. rewrite E, Hin. reflexivity.
Qed.

(** The loop of lines 27-29, started from the bindings of [kept]: it adds
    the first occurrences of the urls not seen yet, at the end and in
    order. *)
Lemma dedupe_loop_first_occurrences (sources : list value) :
  Forall (fun s => is_source s = true) sources ->
  forall kept : list value,
    dedupe_loop sources (map entry kept)
    = Ok (map entry
            (kept ++ filter (unseen (map url_of kept))
                       (first_occurrences sources))%list).
Proof.
  induction 1 as [|s rest Hs _ IH]; intros kept; simpl.
  - now rewrite app_nil_r.
  - rewrite (source_url s Hs). simpl.
    rewrite contains_entries.
    destruct (existsb (String.eqb (url_of s)) (map url_of kept)) eqn:Hseen.
    + rewrite IH. unfold unseen at 2. rewrite Hseen. simpl.
      rewrite filter_filter. do 3 f_equal.
      apply filter_ext. intros x. symmetry. now apply seen_absorbs.
    + replace (map entry kept ++ [(VStr (url_of s), s)])%list
        with (map entry (kept ++ [s])%list)
        by (rewrite map_app; reflexivity).
      rewrite IH. unfold unseen at 2. rewrite Hseen. simpl.
      rewrite filter_filter, <- app_assoc. simpl.
      do 4 f_equal. rewrite map_app. simpl.
      apply filter_ext. intros x. apply unseen_snoc.
Qed.

Lemma first_occurrences_urls (sources : list value) (u : string) :
  In u (map url_of (first_occurrences sources)) <-> In u (map url_of sources).
Proof.
  induction sources as [|s rest IH]; simpl; [tauto|].
  rewrite <- IH. clear IH. split.
  - intros [H|H]; [now left|]. right.
    apply in_map_iff in H. destruct H as (x & Hx & Hin).
    apply filter_In in Hin. apply in_map_iff. exists x. tauto.
  - intros [H|H]; [now left|].
    destruct (String.eqb u (url_of s)) eqn:E.
    + left. apply String.eqb_eq in E. congruence.
    + right. apply in_map_iff in H. destruct H as (x & Hx & Hin).
      apply in_map_iff. exists x. split; [assumption|].
      apply filter_In. split; [assumption|].
      rewrite Hx, E. reflexivity.
Qed.

(** Filtering records whose urls are distinct leaves distinct urls. *)
Lemma filter_keeps_urls_distinct (keep : value -> bool) (records : list value) :
  NoDup (map url_of records) -> NoDup (map url_of (filter keep records)).
Proof.
  induction records as [|r records IH]; simpl; intros Hnd; [constructor|].
  apply NoDup_cons_iff in Hnd. destruct Hnd as [Hfresh Hnd].
  destruct (keep r); simpl; [|now apply IH].
  apply NoDup_cons; [|now apply IH].
  intros Hin. apply Hfresh.
  apply in_map_iff in Hin. destruct Hin as (x & Hx & Hin).
  apply filter_In in Hin. apply in_map_iff. exists x. tauto.
Qed.

Lemma first_occurrences_NoDup (sources : list value) :
  NoDup (map url_of (first_occurrences sources)).
Proof.
  induction sources as [|s rest IH]; simpl; constructor.
  - intros Hin. apply in_map_iff in Hin. destruct Hin as (x & Hx & Hin).
    apply filter_In in Hin. destruct Hin as [_ Hne].
    rewrite Hx, String.eqb_refl in Hne. discriminate.
  - now apply filter_keeps_urls_distinct.
Qed.

Lemma first_occurrences_first (sources : list value) (r : value) :
  In r (first_occurrences sources) ->
  find (fun x => String.eqb (url_of x) (url_of r)) sources = Some r.
Proof.
  induction sources as [|s rest IH]; simpl; [tauto|].
  intros [->|Hin]; [now rewrite String.eqb_refl|].
  apply filter_In in Hin. destruct Hin as [Hin Hne].
  rewrite String.eqb_sym. destruct (String.eqb (url_of r) (url_of s)).
  - discriminate.
  - auto.
Qed.

End Dedupe.

(* ================================================================== *)
(** ** Strings *)
(* ================================================================== *)

Section Strings.

Lemma append_nil_r (s : string) : s ++ EmptyString = s.
Proof. induction s as [|c s IH]; simpl; congruence. Qed.

Lemma append_assoc (a b c : string) : (a ++ b) ++ c = a ++ (b ++ c).
Proof. induction a as [|x a IH]; simpl; congruence. Qed.

Lemma length_append (a b : string) :
  String.length (a ++ b) = (String.length a + String.length b)%nat.
Proof. induction a as [|x a IH]; simpl; congruence. Qed.

Lemma prefix_append (a b : string) : prefix a (a ++ b) = true.
Proof.
  induction a as [|x a IH]; simpl.
  - now destruct b.
  - destruct (ascii_dec x x); [assumption|congruence].
Qed.

Lemma substring_first_chars (n : nat) (s : string) :
  substring 0 n s = first_chars n s.
Proof.
  revert s. induction n as [|n IH]; intros [|c s]; simpl; try reflexivity.
  now rewrite IH.
Qed.

Lemma first_chars_length (n : nat) (s : string) :
  (n <= String.length s)%nat -> String.length (first_chars n s) = n.
Proof.
  revert s. induction n as [|n IH]; intros [|c s]; simpl; intros H;
    try reflexivity; try lia.
  rewrite IH; lia.
Qed.

Lemma first_chars_prefix (n : nat) (s : string) :
  exists dropped, s = first_chars n s ++ dropped.
Proof.
  revert s. induction n as [|n IH]; intros s.
  - exists s. now destruct s.
  - destruct s as [|c s]; [now exists EmptyString|].
    destruct (IH s) as (dropped & H). exists dropped. simpl. congruence.
Qed.

(** *** Stripping *)

Lemma rstrip_cons (c : ascii) (s : string) :
  is_space c = false -> rstrip (String c s) = String c (rstrip s).
Proof.
  intros H. simpl. rewrite H. now destruct (rstrip s).
Qed.

Lemma rstrip_append (a : string) (c : ascii) (b : string) :
  is_space c = false -> rstrip (a ++ String c b) = a ++ rstrip (String c b).
Proof.
  intros H. pose proof (rstrip_cons c b H) as Hc.
  induction a as [|x a IH]; [reflexivity|].
  change (rstrip (String x a ++ String c b))
    with (match rstrip (a ++ String c b) with
          | EmptyString => if is_space x then EmptyString else str1 x
          | kept => String x kept
          end).
  rewrite IH, Hc. now destruct a.
Qed.

Lemma lstrip_head (s : string) (c : ascii) (rest : string) :
  lstrip s = String c rest -> is_space c = false.
Proof.
  induction s as [|x s IH]; simpl; [discriminate|].
  destruct (is_space x) eqn:E; [assumption|].
  intros [= <- _]. assumption.
Qed.

Lemma rstrip_last (s front : string) (c : ascii) :
  rstrip s = front ++ str1 c -> is_space c = false.
Proof.
  revert front. induction s as [|x s IH]; intros front; simpl.
  - destruct front; discriminate.
  - destruct (rstrip s) as [|y kept] eqn:E.
    + destruct (is_space x) eqn:Hx.
      * destruct front; discriminate.
      * destruct front as [|z [|? ?]]; simpl; try discriminate.
        intros [= <-]. assumption.
    + destruct front as [|z front]; simpl.
      * discriminate.
      * intros [= _ H]. now apply (IH front).
Qed.

Lemma strip_trimmed (s : string) : trimmed (strip s).
Proof.
  unfold strip. split.
  - intros c rest H.
    destruct (lstrip s) as [|x t] eqn:E; [discriminate|].
    pose proof (lstrip_head s x t E) as Hx.
    rewrite (rstrip_cons x t Hx) in H. congruence.
  - intros front c H. now apply (rstrip_last (lstrip s) front).
Qed.

End Strings.

(* ================================================================== *)
(** ** Formatting *)
(* ================================================================== *)

Section Formatting.

(** Closes an equation between two outcomes that differ by the bracketing
    of their texts. *)
Local Ltac finish :=
  unfold ret, raw_heading, warning;
  rewrite ?app_nil_r, ?append_assoc; reflexivity.

Lemma text_getitem (k : string) (s : value) :
  has_text k s = true -> getitem s k = Ok (VStr (field_text k s)).
Proof.
  unfold has_text, field_text, text_field, getitem.
  destruct s; try discriminate.
  destruct (lookup k entries) as [[]|]; try discriminate; reflexivity.
Qed.

Lemma is_source_fields (s : value) :
  is_source s = true ->
  getitem s "title" = Ok (VStr (title_of s))
  /\ getitem s "url" = Ok (VStr (url_of s))
  /\ getitem s "content" = Ok (VStr (content_of s)).
Proof.
  unfold is_source. rewrite !andb_true_iff. intros [[Ht Hu] Hc].
  repeat split; now apply text_getitem.
Qed.

Lemma format_fields_ok (text : string) (s : value) :
  is_source s = true ->
  format_fields text s = Ok (text ++ fields_block s).
Proof.
  intros H. destruct (is_source_fields s H) as (Ht & Hu & Hc).
  unfold format_fields, fields_block. rewrite Ht, Hu, Hc.
  cbn [bind str]. now rewrite !append_assoc.
Qed.

Lemma format_source_fields (text : string) (s : value) (max : Z)
    (include_raw_content : bool) (out : list string) :
  is_source s = true ->
  format_source text s max include_raw_content out
  = if include_raw_content
    then format_raw_content (text ++ fields_block s) s max out
    else (out, Ok (text ++ fields_block s)).
Proof.
  intros H. unfold format_source, iobind, lift.
  rewrite (format_fields_ok text s H). now destruct include_raw_content.
Qed.

Lemma format_raw_content_ok (text : string) (s : value) (max : Z)
    (out : list string) :
  is_search_result s = true ->
  format_raw_content text s max out
  = ((out ++ warnings_of s)%list, Ok (text ++ raw_section max s)).
Proof.
  unfold is_search_result. rewrite andb_true_iff. intros [Hs Hraw].
  destruct (is_source_fields s Hs) as (_ & Hu & _).
  unfold format_raw_content, iobind, lift.
  unfold raw_section, emitted_raw, resolved_raw, warnings_of, limit_raw.
  unfold raw_content_ok in Hraw. revert Hu Hraw.
  unfold raw_content_of, get. destruct s as [| | | | |d]; try discriminate.
  intros Hu.
  destruct (lookup "raw_content" d) as [[| | |raw| |]|]; try discriminate;
    intros _.
  - rewrite Hu. cbn [print ret len str String.length Z.of_nat].
    destruct (0 >? max * 4); cbn [slice_concat lift ret str]; finish.
  - cbn [ret len].
    destruct (Z.of_nat (String.length raw) >? max * 4);
      cbn [slice_concat lift ret str]; finish.
  - cbn [ret len str String.length Z.of_nat].
    destruct (0 >? max * 4); cbn [slice_concat lift ret str]; finish.
Qed.

Lemma format_source_ok (text : string) (s : value) (max : Z)
    (include_raw_content : bool) (out : list string) :
  is_search_result s = true ->
  format_source text s max include_raw_content out
  = ((out ++ printed include_raw_content [s])%list,
     Ok (text ++ block max include_raw_content s)).
Proof.
  intros H. pose proof H as Hs. unfold is_search_result in Hs.
  apply andb_true_iff in Hs. destruct Hs as [Hs _].
  rewrite (format_source_fields _ _ _ _ _ Hs). unfold block, printed.
  destruct include_raw_content; simpl.
  - rewrite (format_raw_content_ok _ _ _ _ H).
    now rewrite app_nil_r, append_assoc.
  - now rewrite app_nil_r, append_nil_r.
Qed.

Lemma printed_cons (include_raw_content : bool) (s : value)
    (rest : list value) :
  printed include_raw_content (s :: rest)
  = (printed include_raw_content [s] ++ printed include_raw_content rest)%list.
Proof.
  unfold printed. destruct include_raw_content; simpl; [|reflexivity].
  now rewrite app_nil_r.
Qed.

Lemma format_loop_ok (sources : list value) (max : Z)
    (include_raw_content : bool) :
  Forall (fun s => is_search_result s = true) sources ->
  forall (text : string) (out : list string),
    format_loop text sources max include_raw_content out
    = ((out ++ printed include_raw_content sources)%list,
       Ok (text ++ text_of (map (block max include_raw_content) sources))).
Proof.
  induction 1 as [|s rest Hs _ IH]; intros text out.
  - unfold printed. destruct include_raw_content; simpl;
      now rewrite app_nil_r, append_nil_r.
  - cbn [format_loop]. unfold iobind.
    rewrite (format_source_ok _ _ _ _ _ Hs), IH.
    rewrite (printed_cons include_raw_content s rest).
    cbn [map text_of]. now rewrite <- app_assoc, append_assoc.
Qed.

(** Without the raw content only the three text fields are read. *)
Lemma format_loop_fields (sources : list value) (max : Z) :
  Forall (fun s => is_source s = true) sources ->
  forall (text : string) (out : list string),
    format_loop text sources max false out
    = (out, Ok (text ++ text_of (map fields_block sources))).
Proof.
  induction 1 as [|s rest Hs _ IH]; intros text out.
  - simpl. now rewrite append_nil_r.
  - cbn [format_loop]. unfold iobind.
    rewrite (format_source_fields _ _ _ _ _ Hs), IH.
    cbn [map text_of]. now rewrite append_assoc.
Qed.

End Formatting.

(* ================================================================== *)
(** ** The whole call *)
(* ================================================================== *)

Section Pipeline.

Lemma first_occurrences_incl (sources : list value) (r : value) :
  In r (first_occurrences sources) -> In r sources.
Proof.
  induction sources as [|s rest IH]; simpl; [tauto|].
  intros [H|H]; [now left|]. right. apply IH.
  apply filter_In in H. tauto.
Qed.

Lemma first_occurrences_Forall (P : value -> Prop) (sources : list value) :
  Forall P sources -> Forall P (first_occurrences sources).
Proof.
  rewrite !Forall_forall. intros H r Hr.
  apply H. now apply first_occurrences_incl.
Qed.

Lemma filter_unseen_nil (l : list value) : filter (unseen []) l = l.
Proof.
  induction l as [|a l IH]; simpl; [reflexivity|]. now rewrite IH.
Qed.

Lemma map_snd_entry (l : list value) : map snd (map entry l) = l.
Proof.
  induction l as [|a l IH]; simpl; [reflexivity|]. now rewrite IH.
Qed.

Lemma deduplicate_sources (sources : list value) :
  Forall (fun s => is_source s = true) sources ->
  deduplicate (VList sources) = Ok (map entry (first_occurrences sources)).
Proof.
  intros H. unfold deduplicate. cbn [iterate bind].
  change (@nil (value * value)) with (map entry []).
  rewrite (dedupe_loop_first_occurrences sources H []).
  cbn [map app]. now rewrite filter_unseen_nil.
Qed.

Lemma search_results_are_sources (sources : list value) :
  Forall (fun s => is_search_result s = true) sources ->
  Forall (fun s => is_source s = true) sources.
Proof.
  apply Forall_impl. intros s H. unfold is_search_result in H.
  apply andb_true_iff in H. tauto.
Qed.

(** A call on an input that normalizes to search results: one block per
    first occurrence, after the header, stripped. *)
Lemma call_on_search_results (input : value) (sources : list value)
    (max : Z) (include_raw_content : bool) (out : list string) :
  normalize input = Ok (VList sources) ->
  Forall (fun s => is_search_result s = true) sources ->
  deduplicate_and_format_sources input max include_raw_content out
  = ((out ++ printed include_raw_content (first_occurrences sources))%list,
     Ok (strip (header ++ text_of (map (block max include_raw_content)
                                     (first_occurrences sources))))).
Proof.
  intros Hn Hs. unfold deduplicate_and_format_sources, iobind, lift.
  rewrite Hn, (deduplicate_sources sources (search_results_are_sources _ Hs)).
  rewrite map_snd_entry. unfold format, iobind.
  rewrite (format_loop_ok _ max include_raw_content
             (first_occurrences_Forall _ _ Hs)).
  reflexivity.
Qed.

Lemma call_without_raw_content (input : value) (sources : list value)
    (max : Z) (out : list string) :
  normalize input = Ok (VList sources) ->
  Forall (fun s => is_source s = true) sources ->
  deduplicate_and_format_sources input max false out
  = (out, Ok (strip (header ++ text_of (map fields_block
                                          (first_occurrences sources))))).
Proof.
  intros Hn Hs. unfold deduplicate_and_format_sources, iobind, lift.
  rewrite Hn, (deduplicate_sources sources Hs).
  rewrite map_snd_entry. unfold format, iobind.
  rewrite (format_loop_fields _ max (first_occurrences_Forall _ _ Hs)).
  reflexivity.
Qed.

Lemma strip_header_blocks (b : string) :
  strip (header ++ "Source " ++ b) = header ++ rstrip ("Source " ++ b).
Proof.
  unfold strip.
  change (lstrip (header ++ "Source " ++ b)) with (header ++ "Source " ++ b).
  change ("Source " ++ b) with (String "S" ("ource " ++ b)).
  now apply rstrip_append.
Qed.

Lemma limit_raw_positive (max : Z) (raw : string) :
  0 < max -> limit_raw max raw = truncated_to (Z.to_nat (max * 4)) raw.
Proof.
  intros Hmax. unfold limit_raw, truncated_to, slice_to, slice_stop.
  fold truncation_marker.
  destruct (Z.gtb_spec (Z.of_nat (String.length raw)) (max * 4)) as [Hgt|Hle].
  - destruct (Nat.leb_spec (String.length raw) (Z.to_nat (max * 4)));
      [lia|].
    destruct (Z.ltb_spec (max * 4) 0); [lia|].
    rewrite Z.min_l by lia. now rewrite substring_first_chars.
  - destruct (Nat.leb_spec (String.length raw) (Z.to_nat (max * 4)));
      [reflexivity|lia].
Qed.

End Pipeline.

(* ================================================================== *)
(** ** Properties of [deduplicate_and_format_sources] and
       [format_sources] *)
(* ================================================================== *)

Section CallShape.

Lemma text_of_app (first last : list string) :
  text_of (first ++ last) = text_of first ++ text_of last.
Proof.
  induction first as [|b first IH]; [reflexivity|].
  cbn [app text_of]. now rewrite IH, append_assoc.
Qed.

Lemma block_raw_block (max : Z) (s : value) :
  0 < max -> block max true s = raw_block max s.
Proof.
  intros Hmax. unfold block, raw_section, emitted_raw, raw_block.
  now rewrite (limit_raw_positive _ _ Hmax).
Qed.

Lemma raw_block_head (max : Z) (s : value) :
  exists rest, raw_block max s = String "S" rest.
Proof. eexists. reflexivity. Qed.

(** The final [strip] reaches the last block only. *)
Lemma strip_last_block (before : string) (max : Z) (s : value) :
  strip (header ++ before ++ raw_block max s)
  = header ++ before ++ rstrip (raw_block max s).
Proof.
  unfold strip.
  replace (lstrip (header ++ before ++ raw_block max s))
    with (header ++ before ++ raw_block max s) by reflexivity.
  destruct (raw_block_head max s) as (rest & ->).
  rewrite <- (append_assoc header before).
  rewrite rstrip_append by reflexivity.
  now rewrite append_assoc.
Qed.

Lemma raw_block_intact (max : Z) (s : value) (front : string) (c : ascii) :
  truncated_to (Z.to_nat (max * 4)) (resolved_raw s) = front ++ str1 c ->
  is_space c = false ->
  rstrip (raw_block max s)
  = fields_block s ++ raw_heading max
    ++ truncated_to (Z.to_nat (max * 4)) (resolved_raw s).
Proof.
  intros Hcut Hc. unfold raw_block. rewrite Hcut.
  replace (fields_block s ++ raw_heading max ++ (front ++ str1 c) ++ nl ++ nl)
    with ((fields_block s ++ raw_heading max ++ front)
          ++ String c (nl ++ nl))
    by (rewrite !append_assoc; reflexivity).
  rewrite (rstrip_append _ c _ Hc), (rstrip_cons c _ Hc).
  replace (rstrip (nl ++ nl)) with EmptyString by reflexivity.
  rewrite !append_assoc. reflexivity.
Qed.

Lemma first_occurrences_nonempty (sources : list value) :
  sources <> [] -> first_occurrences sources <> [].
Proof. destruct sources; [congruence|discriminate]. Qed.

Lemma warnings_of_null_sources (sources : list value) :
  flat_map warnings_of sources
  = map (fun s => "Warning: No raw_content found for source " ++ url_of s)
      (filter has_null_raw_content sources).
Proof.
  induction sources as [|s rest IH]; [reflexivity|].
  cbn [flat_map filter]. unfold warnings_of at 1, has_null_raw_content at 1.
  destruct (raw_content_of s); cbn [map app]; now rewrite IH.
Qed.

Lemma truncated_within_budget (budget : nat) (raw : string) :
  (String.length raw <= budget)%nat -> truncated_to budget raw = raw.
Proof.
  intros H. unfold truncated_to.
  destruct (Nat.leb_spec (String.length raw) budget); [reflexivity|lia].
Qed.

Lemma truncated_beyond_budget (budget : nat) (raw : string) :
  (budget < String.length raw)%nat ->
  exists kept dropped,
    raw = kept ++ dropped
    /\ String.length kept = budget
    /\ truncated_to budget raw = kept ++ "... [truncated]".
Proof.
  intros H. unfold truncated_to.
  destruct (Nat.leb_spec (String.length raw) budget); [lia|].
  destruct (first_chars_prefix budget raw) as (dropped & Hd).
  exists (first_chars budget raw), dropped.
  repeat split; [exact Hd|]. apply first_chars_length. lia.
Qed.

End CallShape.

(** C1.  On every input that normalizes to search results, the call returns
    the header and the blocks of the records kept, stripped, and prints the
    warnings of the records kept only; the records kept are the first
    occurrences of the urls, in the order of the input, each bound to its url
    by the deduplication of lines 26-29; no url is kept twice; every url of
    the input is kept; and the record kept for a url is, unchanged, the first
    record of the input bearing that url. *)
Theorem deduplicate_keeps_first_occurrences (search_response : value)
    (sources : list value) (max : Z) (include_raw_content : bool)
    (out : list string) :
  normalize search_response = Ok (VList sources) ->
  Forall (fun s => is_search_result s = true) sources ->
  exists kept : list value,
    deduplicate (VList sources) = Ok (map entry kept)
    /\ deduplicate_and_format_sources search_response max
         include_raw_content out
       = ((out ++ printed include_raw_content kept)%list,
          Ok (strip (header
                       ++ text_of (map (block max include_raw_content)
                                     kept))))
    /\ kept = first_occurrences sources
    /\ NoDup (map url_of kept)
    /\ (forall u, In u (map url_of sources) <-> In u (map url_of kept))
    /\ (forall r, In r kept ->
                  find (fun x => String.eqb (url_of x) (url_of r)) sources
                  = Some r).
Proof.
  intros Hn H. exists (first_occurrences sources). repeat split.
  - now apply deduplicate_sources, search_results_are_sources.
  - now apply call_on_search_results.
  - apply first_occurrences_NoDup.
  - now apply first_occurrences_urls.
  - now apply first_occurrences_urls.
  - apply first_occurrences_first.
Qed.

Lemma deduplicate_keeps_first_occurrences_witness :
  normalize two_responses = Ok (VList [source_A; source_A2; source_B])
  /\ Forall (fun s => is_search_result s = true)
       [source_A; source_A2; source_B]
  /\ deduplicate_and_format_sources two_responses 5 false []
     = ([], Ok (strip (header ++ fields_block source_A
                         ++ fields_block source_B))).
Proof.
  assert (Hn : normalize two_responses
               = Ok (VList [source_A; source_A2; source_B]))
    by reflexivity.
  assert (H : Forall (fun s => is_search_result s = true)
                [source_A; source_A2; source_B])
    by (repeat constructor).
  split; [exact Hn|]. split; [exact H|].
  destruct (deduplicate_keeps_first_occurrences two_responses _ 5 false []
              Hn H)
    as (kept & _ & Hcall & -> & _).
  rewrite Hcall. reflexivity.
Defined.

(** C2, as stated, fails: the raw content of the last source is not emitted
    unmodified when it ends in whitespace.  Here it has 5 characters, within
    the budget of 20, and the [strip] of line 49 removes the last two.  Nor
    is the raw content of a record emitted when the record is dropped as a
    duplicate. *)
Lemma final_strip_cuts_raw_content :
  is_search_result source_padded = true
  /\ raw_content_of source_padded = RawText ("abc " ++ nl)
  /\ Z.of_nat (String.length ("abc " ++ nl)) <= 5 * 4
  /\ run (deduplicate_and_format_sources (response [source_padded]) 5 true)
     = ([], Ok (header ++ "Source P:" ++ nl ++ "===" ++ nl ++ "URL: u9" ++ nl
                ++ "===" ++ nl ++ "Most relevant content from source: c9"
                ++ nl ++ "===" ++ nl
                ++ "Full source content limited to 5 tokens: abc"))
  /\ is_search_result source_A3 = true
  /\ raw_content_of source_A3 = RawText "zzz"
  /\ run (deduplicate_and_format_sources (response [source_A; source_A3]) 5
            true)
     = ([], Ok (header ++ "Source A:" ++ nl ++ "===" ++ nl ++ "URL: u1" ++ nl
                ++ "===" ++ nl ++ "Most relevant content from source: c1"
                ++ nl ++ "===" ++ nl
                ++ "Full source content limited to 5 tokens:")).
Proof.
  repeat split. discriminate.
Qed.

(** C2, amended.  With [include_raw_content] set and a positive budget, on
    every input that normalizes to a non-empty list of search results, the
    call returns the header, then for every record kept but the last its
    three lines, the heading and its raw content, unmodified when its length
    is at most [max_tokens_per_source * 4] and otherwise cut to its first
    [max_tokens_per_source * 4] characters followed by the marker
    [... [truncated]], and two newlines; the block of the last record kept
    comes the same way and then loses the whitespace at its end to the
    [strip] of line 49, so that it ends with the raw content as cut whenever
    that does not end in whitespace. *)
Theorem raw_content_truncation (search_response : value)
    (sources : list value) (max : Z) (out : list string) :
  normalize search_response = Ok (VList sources) ->
  Forall (fun s => is_search_result s = true) sources ->
  sources <> [] ->
  0 < max ->
  exists (before : list value) (final : value),
    first_occurrences sources = (before ++ [final])%list
    /\ deduplicate_and_format_sources search_response max true out
       = ((out ++ printed true (first_occurrences sources))%list,
          Ok (header ++ text_of (map (raw_block max) before)
                ++ rstrip (raw_block max final)))
    /\ (forall s,
          raw_block max s
          = fields_block s ++ raw_heading max
            ++ truncated_to (Z.to_nat (max * 4)) (resolved_raw s)
            ++ nl ++ nl)
    /\ (forall s raw, raw_content_of s = RawText raw -> resolved_raw s = raw)
    /\ (forall raw,
          Z.of_nat (String.length raw) <= max * 4 ->
          truncated_to (Z.to_nat (max * 4)) raw = raw)
    /\ (forall raw,
          max * 4 < Z.of_nat (String.length raw) ->
          exists kept dropped,
            raw = kept ++ dropped
            /\ Z.of_nat (String.length kept) = max * 4
            /\ truncated_to (Z.to_nat (max * 4)) raw
               = kept ++ "... [truncated]")
    /\ (forall front c,
          truncated_to (Z.to_nat (max * 4)) (resolved_raw final)
          = front ++ str1 c ->
          is_space c = false ->
          rstrip (raw_block max final)
          = fields_block final ++ raw_heading max
            ++ truncated_to (Z.to_nat (max * 4)) (resolved_raw final)).
Proof.
  intros Hn Hs Hne Hmax.
  destruct (exists_last (first_occurrences_nonempty sources Hne))
    as (before & final & Hkept).
  exists before, final. split; [exact Hkept|]. split.
  { rewrite (call_on_search_results _ _ _ _ _ Hn Hs), Hkept.
    do 2 f_equal.
    rewrite (map_ext _ _ (fun s => block_raw_block max s Hmax)).
    rewrite map_app, text_of_app. cbn [map text_of].
    rewrite append_nil_r. apply strip_last_block. }
  split; [reflexivity|]. split.
  { intros s raw H. unfold resolved_raw. now rewrite H. }
  split.
  { intros raw H. apply truncated_within_budget. lia. }
  split.
  { intros raw H.
    destruct (truncated_beyond_budget (Z.to_nat (max * 4)) raw)
      as (kept & dropped & Hraw & Hlen & Hcut); [lia|].
    exists kept, dropped. repeat split; [assumption|lia|assumption]. }
  intros front c Hcut Hc. now apply (raw_block_intact max final front c).
Qed.

Lemma raw_content_truncation_witness :
  normalize two_responses = Ok (VList [source_A; source_A2; source_B])
  /\ Forall (fun s => is_search_result s = true)
       [source_A; source_A2; source_B]
  /\ [source_A; source_A2; source_B] <> []
  /\ 0 < 5
  /\ deduplicate_and_format_sources two_responses 5 true []
     = ([], Ok (header ++ fields_block source_A
                ++ "Full source content limited to 5 tokens: " ++ nl ++ nl
                ++ fields_block source_B
                ++ "Full source content limited to 5 tokens: "
                ++ "aaaaaaaaaaaaaaaaaaaa... [truncated]")).
Proof.
  assert (Hn : normalize two_responses
               = Ok (VList [source_A; source_A2; source_B]))
    by reflexivity.
  assert (Hs : Forall (fun s => is_search_result s = true)
                 [source_A; source_A2; source_B])
    by (repeat constructor).
  assert (Hne : [source_A; source_A2; source_B] <> []) by discriminate.
  do 4 (split; [assumption || reflexivity|]).
  destruct (raw_content_truncation two_responses _ 5 [] Hn Hs Hne eq_refl)
    as (before & final & Hkept & Hcall & _).
  change (first_occurrences [source_A; source_A2; source_B])
    with ([source_A] ++ [source_B])%list in Hkept.
  apply app_inj_tail in Hkept. destruct Hkept as [<- <-].
  rewrite Hcall. reflexivity.
Defined.

(** The loop over a list input raises nothing but [TypeError]. *)
Lemma extend_responses_raises (responses sources_list : list value) (e : exn) :
  extend_responses responses sources_list = Raise e -> e = TypeError.
Proof.
  revert sources_list.
  induction responses as [|response rest IH]; intros sources_list;
    [discriminate|].
  cbn [extend_responses].
  destruct response as [| | |s|items|d]; cbn [iterate bind];
    try (intros [= <-]; reflexivity); try apply IH.
  unfold has_key, getitem.
  destruct (lookup "results" d) as [[| | |s|items|d']|]; cbn [iterate bind];
    try (intros [= <-]; reflexivity); apply IH.
Qed.

(** Line 23 is reached exactly by the inputs that are neither a dict nor a
    list. *)
Lemma normalize_ValueError_iff (search_response : value) :
  normalize search_response = Raise (ValueError input_error)
  <-> match search_response with
      | VDict _ | VList _ => False
      | _ => True
      end.
Proof.
  destruct search_response as [| | |s|items|d]; cbn [normalize];
    try tauto.
  - split; [|tauto].
    destruct (extend_responses items []) eqn:E; cbn [bind]; [discriminate|].
    apply extend_responses_raises in E. subst. discriminate.
  - split; [|tauto]. unfold getitem.
    destruct (lookup "results" d); discriminate.
Qed.

(** C3.  A dict that has no [results] key is neither a mapping with a
    [results] field nor a list, yet line 14 subscripts it before any check:
    the call raises [KeyError], not the [ValueError] of line 23, which the
    string of the scenario does get. *)
Theorem dict_without_results_raises_KeyError :
  normalize (VDict []) = Raise (KeyError "results")
  /\ (forall max include_raw_content,
        run (deduplicate_and_format_sources (VDict []) max include_raw_content)
        = ([], Raise (KeyError "results")))
  /\ normalize (VStr "not a dict or list") = Raise (ValueError input_error).
Proof.
  repeat split.
Qed.

(** C4, as stated, fails: a source that has no [raw_content] key gets the
    empty string from the default of [get] on line 41, and line 44 is not
    reached, so nothing is printed.  Nor is anything printed for a source
    whose [raw_content] is [None] when it is dropped as a duplicate. *)
Lemma absent_raw_content_prints_nothing :
  is_search_result source_A = true
  /\ raw_content_of source_A = RawAbsent
  /\ run (format_source EmptyString source_A 5 true)
     = ([], Ok (fields_block source_A
                  ++ "Full source content limited to 5 tokens: " ++ nl ++ nl))
  /\ fst (run (deduplicate_and_format_sources (response [source_A]) 5 true))
     = []
  /\ raw_content_of source_A2 = RawNull
  /\ fst (run (deduplicate_and_format_sources two_responses 5 true)) = [].
Proof.
  repeat split.
Qed.

(** C4, amended.  With [include_raw_content] set, on every input that
    normalizes to search results the call raises nothing and returns the
    header and one block for every record kept, stripped; a record kept whose
    [raw_content] is [None] or missing gets the block of an empty raw
    content (the heading followed by what lines 45-46 make of the empty
    string, which is the empty string when the budget is not negative); and
    the call prints one warning, naming the url, for each record kept whose
    [raw_content] is [None], in order, and nothing else. *)
Theorem missing_raw_content (search_response : value) (sources : list value)
    (max : Z) (out : list string) :
  normalize search_response = Ok (VList sources) ->
  Forall (fun s => is_search_result s = true) sources ->
  exists text : string,
    deduplicate_and_format_sources search_response max true out
    = ((out
        ++ map (fun s =>
                  ("Warning: No raw_content found for source " ++ url_of s)
                    %string)
             (filter has_null_raw_content (first_occurrences sources)))%list,
       Ok text)
    /\ text = strip (header
                       ++ text_of (map (block max true)
                                     (first_occurrences sources)))
    /\ (forall s,
          raw_content_of s = RawNull \/ raw_content_of s = RawAbsent ->
          block max true s
          = fields_block s ++ raw_heading max
            ++ limit_raw max EmptyString ++ nl ++ nl)
    /\ (0 <= max -> limit_raw max EmptyString = EmptyString).
Proof.
  intros Hn Hs. eexists. split; [|split; [reflexivity|split]].
  - rewrite (call_on_search_results _ _ _ _ _ Hn Hs). unfold printed.
    now rewrite warnings_of_null_sources.
  - intros s Hraw. unfold block, raw_section, emitted_raw, resolved_raw.
    now destruct Hraw as [-> | ->].
  - intros Hmax. unfold limit_raw. cbn [String.length Z.of_nat].
    destruct (Z.gtb_spec 0 (max * 4)); [lia|reflexivity].
Qed.

Lemma missing_raw_content_witness :
  normalize (response [source_A2; source_A; source_B])
  = Ok (VList [source_A2; source_A; source_B])
  /\ Forall (fun s => is_search_result s = true)
       [source_A2; source_A; source_B]
  /\ exists text : string,
       deduplicate_and_format_sources
         (response [source_A2; source_A; source_B]) 5 true []
       = (["Warning: No raw_content found for source u1"], Ok text).
Proof.
  assert (Hn : normalize (response [source_A2; source_A; source_B])
               = Ok (VList [source_A2; source_A; source_B]))
    by reflexivity.
  assert (Hs : Forall (fun s => is_search_result s = true)
                 [source_A2; source_A; source_B])
    by (repeat constructor).
  split; [exact Hn|]. split; [exact Hs|].
  destruct (missing_raw_content _ _ 5 [] Hn Hs) as (text & Hcall & _).
  exists text. exact Hcall.
Defined.

(** C5, as stated, fails: with no source the text is the header alone, and
    [strip] removes its two newlines. *)
Lemma no_sources_strips_header :
  run (deduplicate_and_format_sources (VList []) 5 false)
  = ([], Ok "Sources:")
  /\ run (deduplicate_and_format_sources (response []) 5 true)
     = ([], Ok "Sources:")
  /\ prefix header "Sources:" = false.
Proof.
  repeat split.
Qed.

(** C5, amended.  On every input that normalizes to search results the call
    returns the stripped concatenation of the header and one block for each
    unique url, in the order of the first occurrences; neither end of the
    text is a whitespace character; the text begins with the header and its
    two newlines when there is at least one source, and is [Sources:] when
    there is none. *)
Theorem formatted_text_shape (input : value) (sources : list value) (max : Z)
    (include_raw_content : bool) :
  normalize input = Ok (VList sources) ->
  Forall (fun s => is_search_result s = true) sources ->
  exists (kept : list value) (text : string),
    snd (run (deduplicate_and_format_sources input max include_raw_content))
    = Ok text
    /\ NoDup (map url_of kept)
    /\ (forall u, In u (map url_of kept) <-> In u (map url_of sources))
    /\ text = strip (header
                       ++ text_of (map (block max include_raw_content) kept))
    /\ trimmed text
    /\ (sources <> [] -> prefix header text = true)
    /\ (sources = [] -> text = "Sources:").
Proof.
  intros Hn Hs.
  exists (first_occurrences sources).
  eexists. split.
  { unfold run. rewrite (call_on_search_results _ _ _ _ _ Hn Hs).
    reflexivity. }
  split; [apply first_occurrences_NoDup|].
  split; [intros u; apply first_occurrences_urls|].
  split; [reflexivity|].
  split; [apply strip_trimmed|].
  split.
  - destruct sources as [|s rest]; [congruence|]. intros _.
    cbn [first_occurrences map text_of]. unfold block at 1, fields_block.
    rewrite !append_assoc, strip_header_blocks.
    apply prefix_append.
  - intros ->. reflexivity.
Qed.

Lemma formatted_text_shape_witness :
  normalize two_responses = Ok (VList [source_A; source_A2; source_B])
  /\ Forall (fun s => is_search_result s = true)
       [source_A; source_A2; source_B]
  /\ exists text : string,
       snd (run (deduplicate_and_format_sources two_responses 5 true))
       = Ok text
       /\ prefix header text = true.
Proof.
  assert (Hn : normalize two_responses
               = Ok (VList [source_A; source_A2; source_B]))
    by reflexivity.
  assert (Hs : Forall (fun s => is_search_result s = true)
                 [source_A; source_A2; source_B])
    by (repeat constructor).
  split; [exact Hn|]. split; [exact Hs|].
  destruct (formatted_text_shape two_responses _ 5 true Hn Hs)
    as (kept & text & Htext & _ & _ & _ & _ & Hprefix & _).
  exists text. split; [exact Htext|]. apply Hprefix. discriminate.
Defined.

(** C6.  With [include_raw_content] unset, on every input that normalizes
    to records with the three text fields, whatever their [raw_content]
    holds, the call prints nothing and returns the stripped concatenation
    of the header and the three lines of each first occurrence: no block
    has a raw-content section. *)
Theorem no_raw_content_section (input : value) (sources : list value)
    (max : Z) :
  normalize input = Ok (VList sources) ->
  Forall (fun s => is_source s = true) sources ->
  run (deduplicate_and_format_sources input max false)
  = ([], Ok (strip (header ++ text_of (map fields_block
                                         (first_occurrences sources))))).
Proof.
  intros Hn Hs. unfold run. now apply call_without_raw_content.
Qed.

Lemma no_raw_content_section_witness :
  normalize two_responses = Ok (VList [source_A; source_A2; source_B])
  /\ Forall (fun s => is_source s = true) [source_A; source_A2; source_B]
  /\ run (deduplicate_and_format_sources two_responses 5 false)
     = ([], Ok ("Sources:" ++ nl ++ nl
                ++ "Source A:" ++ nl ++ "===" ++ nl ++ "URL: u1" ++ nl
                ++ "===" ++ nl ++ "Most relevant content from source: c1"
                ++ nl ++ "===" ++ nl
                ++ "Source B:" ++ nl ++ "===" ++ nl ++ "URL: u2" ++ nl
                ++ "===" ++ nl ++ "Most relevant content from source: c3"
                ++ nl ++ "===")).
Proof.
  assert (Hn : normalize two_responses
               = Ok (VList [source_A; source_A2; source_B]))
    by reflexivity.
  assert (Hs : Forall (fun s => is_source s = true)
                 [source_A; source_A2; source_B])
    by (repeat constructor).
  split; [exact Hn|]. split; [exact Hs|].
  rewrite (no_raw_content_section two_responses _ 5 Hn Hs). reflexivity.
Defined.

(** C7, as stated, fails: a flat search result inside a list input is a
    dict with no [results] key, so line 21 hands it to [extend], which adds
    its keys; the call then raises on subscripting a key by [url]. *)
Lemma flat_result_contributes_its_keys :
  is_search_result source_A = true
  /\ normalize (VList [source_A])
     = Ok (VList [VStr "title"; VStr "url"; VStr "content"])
  /\ normalize (VList [source_A]) <> Ok (VList [source_A])
  /\ run (deduplicate_and_format_sources (VList [source_A]) 5 false)
     = ([], Raise TypeError).
Proof.
  repeat split. discriminate.
Qed.

Lemma extend_responses_batches (batches : list (list value))
    (responses : list value) :
  Forall2 batch_of batches responses ->
  forall sources_list : list value,
    extend_responses responses sources_list
    = Ok (sources_list ++ concat batches)%list.
Proof.
  induction 1 as [|results response batches responses Hb _ IH];
    intros sources_list; cbn [extend_responses concat].
  - now rewrite app_nil_r.
  - destruct Hb as [(d & -> & Hd) | ->].
    + unfold has_key, getitem. rewrite Hd. cbn [iterate bind].
      now rewrite IH, app_assoc.
    + cbn [iterate bind]. now rewrite IH, app_assoc.
Qed.

(** C7, amended.  On a list input whose elements are each a search response
    (a dict whose [results] is a list) or a list of results, the conversion
    of lines 15-21 gives the concatenation of those lists, in the order of
    the input. *)
Theorem normalize_flattens (batches : list (list value))
    (responses : list value) :
  Forall2 batch_of batches responses ->
  normalize (VList responses) = Ok (VList (concat batches)).
Proof.
  intros H. cbn [normalize].
  now rewrite (extend_responses_batches batches responses H []).
Qed.

Lemma normalize_flattens_witness :
  Forall2 batch_of [[source_A]; [source_A2; source_B]]
    [response [source_A]; VList [source_A2; source_B]]
  /\ normalize (VList [response [source_A]; VList [source_A2; source_B]])
     = Ok (VList [source_A; source_A2; source_B]).
Proof.
  assert (H : Forall2 batch_of [[source_A]; [source_A2; source_B]]
                [response [source_A]; VList [source_A2; source_B]]).
  { constructor; [|constructor; [|constructor]].
    - left. eexists. split; reflexivity.
    - right. reflexivity. }
  split; [exact H|]. exact (normalize_flattens _ _ H).
Defined.

Lemma bullet_lines_sources (results : list value) :
  Forall (fun s => is_source s = true) results ->
  bullet_lines results = Ok (map bullet results).
Proof.
  induction 1 as [|s rest Hs _ IH]; [reflexivity|].
  destruct (is_source_fields s Hs) as (Ht & Hu & _).
  cbn [bullet_lines map]. rewrite Ht, Hu, IH. reflexivity.
Qed.

(** C8.  On a search response whose results have their text fields,
    [format_sources] returns the lines [* title : url] of all the results,
    one for each result in the order of the input, repeated urls included,
    joined by newlines. *)
Theorem format_sources_bullets (search_results : value)
    (results : list value) :
  response_of results search_results ->
  Forall (fun s => is_source s = true) results ->
  format_sources search_results
  = Ok (join nl (map (fun s => "* " ++ title_of s ++ " : " ++ url_of s)
                   results))
  /\ List.length (map (fun s => "* " ++ title_of s ++ " : " ++ url_of s)
                    results)
     = List.length results.
Proof.
  intros (d & -> & Hd) Hs. split; [|apply length_map].
  unfold format_sources, getitem. rewrite Hd. cbn [bind iterate].
  now rewrite (bullet_lines_sources results Hs).
Qed.

Lemma format_sources_bullets_witness :
  response_of [source_A; source_A2; source_B]
    (response [source_A; source_A2; source_B])
  /\ Forall (fun s => is_source s = true) [source_A; source_A2; source_B]
  /\ format_sources (response [source_A; source_A2; source_B])
     = Ok ("* A : u1" ++ nl ++ "* A2 : u1" ++ nl ++ "* B : u2").
Proof.
  assert (Hr : response_of [source_A; source_A2; source_B]
                 (response [source_A; source_A2; source_B]))
    by (eexists; split; reflexivity).
  assert (Hs : Forall (fun s => is_source s = true)
                 [source_A; source_A2; source_B])
    by (repeat constructor).
  split; [exact Hr|]. split; [exact Hs|].
  destruct (format_sources_bullets _ _ Hr Hs) as [H _].
  rewrite H. reflexivity.
Defined.

Section Totality.

Lemma has_key_getitem (k : string) (d : list (string * value)) :
  has_key k d = true -> exists x, getitem (VDict d) k = Ok x.
Proof.
  unfold has_key, getitem. destruct (lookup k d) as [x|]; [|discriminate].
  intros _. now exists x.
Qed.

Lemma format_fields_total (text : string) (s : value) :
  well_formed_source s = true -> exists text', format_fields text s = Ok text'.
Proof.
  destruct s as [| | | | |d]; try discriminate. cbn [well_formed_source].
  rewrite !andb_true_iff. intros [[[Ht Hu] Hc] _].
  destruct (has_key_getitem _ _ Ht) as (t & Et).
  destruct (has_key_getitem _ _ Hu) as (u & Eu).
  destruct (has_key_getitem _ _ Hc) as (c & Ec).
  unfold format_fields. rewrite Et, Eu, Ec. cbn [bind]. eauto.
Qed.

Lemma format_raw_content_total (text : string) (s : value) (max : Z)
    (out : list string) :
  well_formed_source s = true ->
  exists out' text', format_raw_content text s max out = (out', Ok text').
Proof.
  destruct s as [| | | | |d]; try discriminate. cbn [well_formed_source].
  rewrite !andb_true_iff. intros [[[_ Hu] _] Hraw].
  destruct (has_key_getitem _ _ Hu) as (u & Eu).
  unfold raw_content_ok, raw_content_of in Hraw.
  unfold format_raw_content, iobind, lift, get.
  destruct (lookup "raw_content" d) as [[| | |raw| |]|]; try discriminate.
  - rewrite Eu. cbn [print ret len].
    destruct (_ >? _); cbn [slice_concat]; unfold ret; eauto.
  - cbn [ret len]. destruct (_ >? _); cbn [slice_concat]; unfold ret; eauto.
  - cbn [ret len]. destruct (_ >? _); cbn [slice_concat]; unfold ret; eauto.
Qed.

Lemma format_source_total (text : string) (s : value) (max : Z)
    (include_raw_content : bool) (out : list string) :
  well_formed_source s = true ->
  exists out' text',
    format_source text s max include_raw_content out = (out', Ok text').
Proof.
  intros H. unfold format_source, iobind, lift.
  destruct (format_fields_total text s H) as (text' & ->).
  destruct include_raw_content.
  - now apply format_raw_content_total.
  - unfold ret. eauto.
Qed.

Lemma format_loop_total (sources : list value) (max : Z)
    (include_raw_content : bool) :
  Forall (fun s => well_formed_source s = true) sources ->
  forall (text : string) (out : list string),
  exists out' text',
    format_loop text sources max include_raw_content out = (out', Ok text').
Proof.
  induction 1 as [|s rest Hs _ IH]; intros text out; cbn [format_loop].
  - unfold ret. eauto.
  - unfold iobind.
    destruct (format_source_total text s max include_raw_content out Hs)
      as (out1 & text1 & ->).
    apply IH.
Qed.

Lemma search_result_well_formed (s : value) :
  is_search_result s = true -> well_formed_source s = true.
Proof.
  unfold is_search_result, is_source, has_text, text_field.
  destruct s as [| | | | |d]; try discriminate. cbn [well_formed_source].
  unfold has_key. rewrite !andb_true_iff. intros [[[Ht Hu] Hc] Hraw].
  repeat split; try assumption.
  - now destruct (lookup "title" d).
  - now destruct (lookup "url" d).
  - now destruct (lookup "content" d).
Qed.

End Totality.

Section DigitLimit.

Lemma str_convertible (v : value) :
  Limited.convertible v = true -> Limited.str v = Ok (Py.str v).
Proof. intros H. unfold Limited.str. now rewrite H. Qed.

Lemma str_unconvertible (v : value) :
  Limited.convertible v = false ->
  Limited.str v = Raise (ValueError Limited.digits_error).
Proof. intros H. unfold Limited.str. now rewrite H. Qed.

Lemma convertible_budget (max : Z) :
  Z.abs max < 10 ^ 4300 -> Limited.convertible (VInt max) = true.
Proof.
  intros H. cbn [Limited.convertible]. apply Z.ltb_lt. exact H.
Qed.

Lemma unconvertible_bound :
  Limited.convertible (VInt (10 ^ Limited.max_str_digits)) = false.
Proof.
  cbn [Limited.convertible]. apply Z.ltb_ge.
  rewrite Z.abs_eq; [apply Z.le_refl|].
  apply Z.pow_nonneg. discriminate.
Qed.

Lemma limited_format_fields (text : string) (s : value) :
  printable s = true ->
  Limited.format_fields text s = format_fields text s.
Proof.
  destruct s as [| | | | |d]; try reflexivity.
  unfold printable, convertible_at. rewrite !andb_true_iff.
  intros [[[Ht Hu] Hc] _].
  unfold Limited.format_fields, format_fields, getitem.
  destruct (lookup "title" d) as [title|]; [|reflexivity].
  cbn [bind]. rewrite (str_convertible title Ht). cbn [bind].
  destruct (lookup "url" d) as [url|]; [|reflexivity].
  cbn [bind]. rewrite (str_convertible url Hu). cbn [bind].
  destruct (lookup "content" d) as [content|]; [|reflexivity].
  cbn [bind]. rewrite (str_convertible content Hc). reflexivity.
Qed.

(** Lines 45-47, once the raw content is resolved. *)
Lemma limited_limit_and_append (text : string) (raw : value) (max : Z)
    (out : list string) :
  Limited.convertible raw = true ->
  Limited.convertible (VInt max) = true ->
  (n <~ lift (len raw) ;;
   raw_content <~ (if n >? max * 4
                   then lift (slice_concat raw (max * 4) truncation_marker)
                   else ret raw) ;;
   budget <~ lift (Limited.str (VInt max)) ;;
   raw_content <~ lift (Limited.str raw_content) ;;
   ret (text ++ "Full source content limited to " ++ budget ++ " tokens: "
          ++ raw_content ++ nl ++ nl)) out
  = (n <~ lift (len raw) ;;
     raw_content <~ (if n >? max * 4
                     then lift (slice_concat raw (max * 4) truncation_marker)
                     else ret raw) ;;
     ret (text ++ "Full source content limited to " ++ Py.str (VInt max)
            ++ " tokens: " ++ Py.str raw_content ++ nl ++ nl)) out.
Proof.
  intros Hraw Hmax. unfold iobind, lift.
  rewrite (str_convertible _ Hmax).
  destruct (len raw) as [n|e]; [|reflexivity].
  destruct (n >? max * 4).
  - destruct raw; reflexivity.
  - cbn [ret]. now rewrite (str_convertible raw Hraw).
Qed.

Lemma limited_format_raw_content (text : string) (s : value) (max : Z)
    (out : list string) :
  printable s = true ->
  Limited.convertible (VInt max) = true ->
  Limited.format_raw_content text s max out
  = format_raw_content text s max out.
Proof.
  intros Hs Hmax. destruct s as [| | | | |d]; try reflexivity.
  unfold printable, convertible_at in Hs. rewrite !andb_true_iff in Hs.
  destruct Hs as [[[_ Hu] _] Hraw].
  unfold Limited.format_raw_content, format_raw_content.
  unfold iobind at 1 7. unfold lift at 1 6. unfold get.
  destruct (lookup "raw_content" d) as [raw|].
  - unfold iobind at 1 6.
    destruct raw;
      try (cbn [ret]; now apply limited_limit_and_append).
    unfold iobind at 1 8. unfold lift at 1 7. unfold getitem.
    destruct (lookup "url" d) as [url|]; [|reflexivity].
    unfold iobind at 1. unfold lift at 1.
    rewrite (str_convertible url Hu).
    unfold iobind at 1 6. cbn [print ret].
    now apply limited_limit_and_append.
  - unfold iobind at 1 6. cbn [ret].
    now apply limited_limit_and_append.
Qed.

Lemma limited_format_source (text : string) (s : value) (max : Z)
    (include_raw_content : bool) (out : list string) :
  printable s = true ->
  include_raw_content = false \/ Limited.convertible (VInt max) = true ->
  Limited.format_source text s max include_raw_content out
  = format_source text s max include_raw_content out.
Proof.
  intros Hs Hmax. unfold Limited.format_source, format_source, iobind, lift.
  rewrite (limited_format_fields text s Hs).
  destruct (format_fields text s) as [text'|e]; [|reflexivity].
  destruct include_raw_content; [|reflexivity].
  destruct Hmax as [Hmax|Hmax]; [discriminate|].
  now apply limited_format_raw_content.
Qed.

Lemma limited_format_loop (sources : list value) (max : Z)
    (include_raw_content : bool) :
  Forall (fun s => printable s = true) sources ->
  include_raw_content = false \/ Limited.convertible (VInt max) = true ->
  forall (text : string) (out : list string),
    Limited.format_loop text sources max include_raw_content out
    = format_loop text sources max include_raw_content out.
Proof.
  intros Hs Hmax. induction Hs as [|s rest Hp _ IH]; intros text out;
    [reflexivity|].
  cbn [Limited.format_loop format_loop]. unfold iobind.
  rewrite (limited_format_source text s max include_raw_content out Hp Hmax).
  destruct (format_source text s max include_raw_content out)
    as [out' [text'|e]]; [apply IH|reflexivity].
Qed.

Lemma limited_format (sources : list value) (max : Z)
    (include_raw_content : bool) (out : list string) :
  Forall (fun s => printable s = true) sources ->
  include_raw_content = false \/ Limited.convertible (VInt max) = true ->
  Limited.format sources max include_raw_content out
  = format sources max include_raw_content out.
Proof.
  intros Hs Hmax. unfold Limited.format, format, iobind.
  now rewrite (limited_format_loop sources max include_raw_content Hs Hmax).
Qed.

Lemma search_result_printable (s : value) :
  is_search_result s = true -> printable s = true.
Proof.
  unfold is_search_result, is_source, has_text, text_field, raw_content_ok,
    raw_content_of.
  destruct s as [| | | | |d]; try reflexivity.
  unfold printable, convertible_at.
  destruct (lookup "title" d) as [[]|], (lookup "url" d) as [[]|],
    (lookup "content" d) as [[]|]; try discriminate;
    destruct (lookup "raw_content" d) as [[]|]; try discriminate;
    reflexivity.
Qed.

(** Below the limit the call is the one of [Utils]. *)
Lemma limited_call_on_search_results (input : value) (sources : list value)
    (max : Z) (include_raw_content : bool) (out : list string) :
  normalize input = Ok (VList sources) ->
  Forall (fun s => is_search_result s = true) sources ->
  include_raw_content = false \/ Z.abs max < 10 ^ 4300 ->
  Limited.deduplicate_and_format_sources input max include_raw_content out
  = deduplicate_and_format_sources input max include_raw_content out.
Proof.
  intros Hn Hs Hmax.
  unfold Limited.deduplicate_and_format_sources,
    deduplicate_and_format_sources, iobind, lift.
  rewrite Hn, (deduplicate_sources sources (search_results_are_sources _ Hs)).
  rewrite map_snd_entry. apply limited_format.
  - apply first_occurrences_Forall.
    apply (Forall_impl _ search_result_printable Hs).
  - destruct Hmax as [Hmax|Hmax]; [now left|right].
    now apply convertible_budget.
Qed.

End DigitLimit.

(** C9, as stated, fails: from CPython 3.11 on, line 47 raises [ValueError]
    when the budget has more than 4300 digits, and so does line 34 when a
    title is such an integer. *)
Lemma huge_budget_raises :
  well_formed_source source_A = true
  /\ Limited.format [source_A] (10 ^ 4300) true []
     = ([], Raise (ValueError Limited.digits_error))
  /\ well_formed_source source_numbered = true
  /\ Limited.format [source_numbered] 5 false []
     = ([], Raise (ValueError Limited.digits_error)).
Proof.
  pose proof unconvertible_bound as Hbig.
  assert (Hpos : 0 < 10 ^ Limited.max_str_digits)
    by (apply Z.pow_pos_nonneg; [reflexivity|discriminate]).
  change (10 ^ 4300) with (10 ^ Limited.max_str_digits).
  unfold source_numbered.
  generalize dependent (10 ^ Limited.max_str_digits). intros big Hbig Hpos.
  split; [reflexivity|]. split; [|split; [reflexivity|]].
  - unfold Limited.format, Limited.format_loop, Limited.format_source,
      Limited.format_raw_content.
    rewrite (str_unconvertible _ Hbig).
    unfold iobind, lift. cbn [source_A].
    replace (Limited.format_fields header source_A)
      with (Ok (header ++ fields_block source_A)) by reflexivity.
    cbn [get source_A lookup String.eqb Ascii.eqb Bool.eqb ret len
           String.length Z.of_nat].
    destruct (Z.gtb_spec 0 (big * 4)); [lia|]. reflexivity.
  - unfold Limited.format, Limited.format_loop, Limited.format_source,
      Limited.format_fields, iobind, lift.
    cbn [getitem lookup String.eqb Ascii.eqb Bool.eqb bind].
    now rewrite (str_unconvertible _ Hbig).
Qed.

(** C9, amended.  On every list of well-formed sources (each a record that
    has a [title], a [url] and a [content], with a [raw_content] that is a
    string, [None] or missing) whose fields hold no integer of more than
    4300 digits, whatever was printed before, the formatting of lines 31-49
    returns a text and raises nothing for either value of
    [include_raw_content] and every integer budget of at most 4300 digits,
    and for every integer budget at all when [include_raw_content] is
    unset. *)
Theorem format_is_total (unique_sources : list value) (max : Z)
    (include_raw_content : bool) (out : list string) :
  Forall (fun s => well_formed_source s = true) unique_sources ->
  Forall (fun s => printable s = true) unique_sources ->
  include_raw_content = false \/ Z.abs max < 10 ^ 4300 ->
  exists (out' : list string) (text : string),
    Limited.format unique_sources max include_raw_content out
    = (out', Ok text).
Proof.
  intros H Hp Hmax.
  rewrite limited_format.
  - unfold format, iobind.
    destruct (format_loop_total unique_sources max include_raw_content H
                header out) as (out' & text & ->).
    unfold ret. eauto.
  - exact Hp.
  - destruct Hmax as [Hmax|Hmax]; [now left|right].
    now apply convertible_budget.
Qed.

Lemma format_is_total_witness :
  Forall (fun s => well_formed_source s = true) [source_A; source_A2; source_B]
  /\ Forall (fun s => printable s = true) [source_A; source_A2; source_B]
  /\ (true = false \/ Z.abs (-3) < 10 ^ 4300)
  /\ exists (out' : list string) (text : string),
       Limited.format [source_A; source_A2; source_B] (-3) true []
       = (out', Ok text).
Proof.
  assert (H : Forall (fun s => well_formed_source s = true)
                [source_A; source_A2; source_B])
    by (repeat constructor).
  assert (Hp : Forall (fun s => printable s = true)
                 [source_A; source_A2; source_B])
    by (repeat constructor).
  assert (Hmax : true = false \/ Z.abs (-3) < 10 ^ 4300).
  { right. apply Z.lt_le_trans with (10 ^ 1); [reflexivity|].
    apply Z.pow_le_mono_r; lia. }
  split; [exact H|]. split; [exact Hp|]. split; [exact Hmax|].
  exact (format_is_total _ (-3) true [] H Hp Hmax).
Defined.

(** Past the conversion of lines 12-23 a call on search results raises
    nothing. *)
Lemma call_returns (input : value) (sources : list value) (max : Z)
    (include_raw_content : bool) :
  normalize input = Ok (VList sources) ->
  Forall (fun s => is_search_result s = true) sources ->
  exists text,
    snd (run (deduplicate_and_format_sources input max include_raw_content))
    = Ok text.
Proof.
  intros Hn Hs. unfold run.
  rewrite (call_on_search_results _ _ _ _ _ Hn Hs). cbn [snd]. eauto.
Qed.

Lemma format_loop_budget (sources : list value) (max1 max2 : Z) :
  forall (text : string) (out : list string),
    format_loop text sources max1 false out
    = format_loop text sources max2 false out.
Proof.
  induction sources as [|s rest IH]; intros text out; [reflexivity|].
  cbn [format_loop]. unfold iobind.
  change (format_source text s max1 false out)
    with (format_source text s max2 false out).
  destruct (format_source text s max2 false out) as [out' [text'|e]];
    [apply IH|reflexivity].
Qed.

(** C10.  With [include_raw_content] unset the budget is not read: on every
    input, for every two budgets and whatever was printed before, the two
    calls print the same lines and return the same text or raise the same
    exception. *)
Theorem budget_is_ignored_without_raw_content (search_response : value)
    (max1 max2 : Z) (out : list string) :
  deduplicate_and_format_sources search_response max1 false out
  = deduplicate_and_format_sources search_response max2 false out.
Proof.
  unfold deduplicate_and_format_sources, iobind, lift.
  destruct (normalize search_response) as [sources_list|e]; [|reflexivity].
  destruct (deduplicate sources_list) as [unique_sources|e]; [|reflexivity].
  unfold format, iobind.
  now rewrite (format_loop_budget (map snd unique_sources) max1 max2).
Qed.

(* ================================================================== *)
(** ** Further properties of the formatter *)
(* ================================================================== *)

Section MoreDedupe.

Lemma filter_length_le {A : Type} (p : A -> bool) (l : list A) :
  (List.length (filter p l) <= List.length l)%nat.
Proof.
  induction l as [|a l IH]; simpl; [lia|]. destruct (p a); simpl; lia.
Qed.

Lemma filter_all_kept {A : Type} (p : A -> bool) (l : list A) :
  List.length (filter p l) = List.length l -> filter p l = l.
Proof.
  induction l as [|a l IH]; simpl; [reflexivity|].
  pose proof (filter_length_le p l) as Hle.
  destruct (p a); simpl; intros H; [|lia].
  f_equal. apply IH. lia.
Qed.

Lemma first_occurrences_length (sources : list value) :
  (List.length (first_occurrences sources) <= List.length sources)%nat.
Proof.
  induction sources as [|s rest IH]; simpl; [lia|].
  pose proof (filter_length_le
                (fun x => negb (String.eqb (url_of x) (url_of s)))
                (first_occurrences rest)).
  lia.
Qed.

Lemma first_occurrences_all_kept (sources : list value) :
  List.length (first_occurrences sources) = List.length sources ->
  first_occurrences sources = sources.
Proof.
  induction sources as [|s rest IH]; simpl; [reflexivity|]. intros H.
  pose proof (first_occurrences_length rest) as Hle.
  pose proof (filter_length_le
                (fun x => negb (String.eqb (url_of x) (url_of s)))
                (first_occurrences rest)) as Hf.
  assert (Hrest : first_occurrences rest = rest) by (apply IH; lia).
  rewrite Hrest in *. f_equal. apply filter_all_kept. lia.
Qed.

Lemma first_occurrences_distinct (sources : list value) :
  NoDup (map url_of sources) -> first_occurrences sources = sources.
Proof.
  induction sources as [|s rest IH]; simpl; [reflexivity|]. intros Hnd.
  apply NoDup_cons_iff in Hnd. destruct Hnd as [Hfresh Hnd].
  rewrite (IH Hnd). f_equal.
  clear IH Hnd. induction rest as [|x rest IH]; simpl; [reflexivity|].
  simpl in Hfresh.
  destruct (String.eqb (url_of x) (url_of s)) eqn:E; simpl.
  - apply String.eqb_eq in E. tauto.
  - f_equal. apply IH. tauto.
Qed.

Lemma filter_comm {A : Type} (p q : A -> bool) (l : list A) :
  filter p (filter q l) = filter q (filter p l).
Proof.
  rewrite !filter_filter. apply filter_ext. intros a. apply andb_comm.
Qed.

Lemma filter_twice {A : Type} (p : A -> bool) (l : list A) :
  filter p (filter p l) = filter p l.
Proof.
  rewrite filter_filter. apply filter_ext. intros a. now destruct (p a).
Qed.

(** Under the filter of a url, a record bearing that url does not show. *)
Lemma first_occurrences_hidden (u : string) (r : value)
    (before after : list value) :
  url_of r = u ->
  filter (fun x => negb (String.eqb (url_of x) u))
    (first_occurrences (before ++ r :: after))
  = filter (fun x => negb (String.eqb (url_of x) u))
      (first_occurrences (before ++ after)).
Proof.
  intros Hu. induction before as [|s before IH]; simpl.
  - rewrite Hu, String.eqb_refl. simpl. apply filter_twice.
  - destruct (negb (String.eqb (url_of s) u)); [f_equal|];
      rewrite (filter_comm _ (fun x => negb (String.eqb (url_of x) (url_of s))));
      rewrite IH; apply filter_comm.
Qed.

Lemma first_occurrences_later_duplicate (r : value)
    (before after : list value) :
  In (url_of r) (map url_of before) ->
  first_occurrences (before ++ r :: after)
  = first_occurrences (before ++ after).
Proof.
  induction before as [|s before IH]; simpl; [tauto|].
  intros [H|H].
  - f_equal. now apply first_occurrences_hidden.
  - now rewrite IH.
Qed.

Lemma normalize_response (results : list value) :
  normalize (response results) = Ok (VList results).
Proof. reflexivity. Qed.

End MoreDedupe.

(** X1.  Deduplicating records with text fields keeps at most as many
    records as it is given, and keeps them all exactly when their urls are
    pairwise distinct. *)
Theorem deduplicate_size (sources : list value) :
  Forall (fun s => is_source s = true) sources ->
  exists unique_sources : url_dict,
    deduplicate (VList sources) = Ok unique_sources
    /\ (List.length unique_sources <= List.length sources)%nat
    /\ (List.length unique_sources = List.length sources
        <-> NoDup (map url_of sources)).
Proof.
  intros H. exists (map entry (first_occurrences sources)).
  rewrite length_map. split; [now apply deduplicate_sources|].
  split; [apply first_occurrences_length|]. split.
  - intros E. rewrite <- (first_occurrences_all_kept sources E).
    apply first_occurrences_NoDup.
  - intros Hnd. now rewrite first_occurrences_distinct.
Qed.

Lemma deduplicate_size_witness :
  Forall (fun s => is_source s = true) [source_A; source_A2; source_B]
  /\ exists unique_sources : url_dict,
       deduplicate (VList [source_A; source_A2; source_B]) = Ok unique_sources
       /\ (List.length unique_sources <= 3)%nat.
Proof.
  assert (H : Forall (fun s => is_source s = true)
                [source_A; source_A2; source_B])
    by (repeat constructor).
  split; [exact H|].
  destruct (deduplicate_size _ H) as (unique_sources & Hd & Hle & _).
  exists unique_sources. split; [exact Hd|exact Hle].
Defined.

(** X2.  A record whose url already occurs earlier in the results changes
    nothing: with it or without it the call prints the same lines and
    returns the same text. *)
Theorem later_duplicate_is_ignored (r : value) (before after : list value)
    (max : Z) (include_raw_content : bool) (out : list string) :
  Forall (fun s => is_search_result s = true) (before ++ r :: after) ->
  In (url_of r) (map url_of before) ->
  deduplicate_and_format_sources (response (before ++ r :: after)) max
    include_raw_content out
  = deduplicate_and_format_sources (response (before ++ after)) max
      include_raw_content out.
Proof.
  intros Hs Hdup.
  assert (Hs' : Forall (fun s => is_search_result s = true)
                  (before ++ after)).
  { apply Forall_app in Hs. destruct Hs as [Hb Ha].
    apply Forall_app. split; [assumption|]. now inversion Ha. }
  rewrite (call_on_search_results _ _ _ _ _ (normalize_response _) Hs).
  rewrite (call_on_search_results _ _ _ _ _ (normalize_response _) Hs').
  now rewrite (first_occurrences_later_duplicate r before after Hdup).
Qed.

Lemma later_duplicate_is_ignored_witness :
  Forall (fun s => is_search_result s = true)
    ([source_A] ++ source_A2 :: [source_B])
  /\ In (url_of source_A2) (map url_of [source_A])
  /\ deduplicate_and_format_sources
       (response ([source_A] ++ source_A2 :: [source_B])) 5 true []
     = deduplicate_and_format_sources
         (response ([source_A] ++ [source_B])) 5 true [].
Proof.
  assert (Hs : Forall (fun s => is_search_result s = true)
                 ([source_A] ++ source_A2 :: [source_B]))
    by (repeat constructor).
  assert (Hd : In (url_of source_A2) (map url_of [source_A]))
    by (left; reflexivity).
  split; [exact Hs|]. split; [exact Hd|].
  exact (later_duplicate_is_ignored _ _ _ 5 true [] Hs Hd).
Defined.

(** X3.  A response dict that has a [results] key and the list holding that
    one response are treated alike: same lines printed, same text returned,
    same exception raised. *)
Theorem single_response_as_list (d : list (string * value)) (max : Z)
    (include_raw_content : bool) (out : list string) :
  has_key "results" d = true ->
  deduplicate_and_format_sources (VDict d) max include_raw_content out
  = deduplicate_and_format_sources (VList [VDict d]) max include_raw_content
      out.
Proof.
  intros Hk. unfold deduplicate_and_format_sources, iobind, lift.
  cbn [normalize extend_responses]. rewrite Hk.
  unfold has_key in Hk. unfold getitem.
  destruct (lookup "results" d) as [results|]; [|discriminate].
  cbn [bind]. unfold deduplicate.
  destruct (iterate results) as [items|e]; cbn [bind app iterate];
    reflexivity.
Qed.

Lemma single_response_as_list_witness :
  has_key "results" [("results", VList [source_A; source_B])] = true
  /\ deduplicate_and_format_sources
       (VDict [("results", VList [source_A; source_B])]) 5 true []
     = deduplicate_and_format_sources
         (VList [VDict [("results", VList [source_A; source_B])]]) 5 true [].
Proof.
  split; [reflexivity|].
  exact (single_response_as_list
           [("results", VList [source_A; source_B])] 5 true [] eq_refl).
Defined.

(** X4.  A list of responses and of lists of results is treated as the one
    response that holds all their results in order: same lines printed, same
    text returned, same exception raised. *)
Theorem responses_merge (batches : list (list value))
    (responses : list value) (max : Z) (include_raw_content : bool)
    (out : list string) :
  Forall2 batch_of batches responses ->
  deduplicate_and_format_sources (VList responses) max include_raw_content
    out
  = deduplicate_and_format_sources
      (VDict [("results", VList (concat batches))]) max include_raw_content
      out.
Proof.
  intros H. unfold deduplicate_and_format_sources.
  cbn [normalize getitem lookup String.eqb Ascii.eqb Bool.eqb].
  now rewrite (extend_responses_batches batches responses H []).
Qed.

Lemma responses_merge_witness :
  Forall2 batch_of [[source_A]; [source_A2; source_B]]
    [response [source_A]; VList [source_A2; source_B]]
  /\ deduplicate_and_format_sources
       (VList [response [source_A]; VList [source_A2; source_B]]) 5 true []
     = deduplicate_and_format_sources
         (VDict [("results", VList [source_A; source_A2; source_B])]) 5 true
         [].
Proof.
  assert (H : Forall2 batch_of [[source_A]; [source_A2; source_B]]
                [response [source_A]; VList [source_A2; source_B]]).
  { constructor; [|constructor; [|constructor]].
    - left. eexists. split; reflexivity.
    - right. reflexivity. }
  split; [exact H|].
  exact (responses_merge _ _ 5 true [] H).
Defined.

Section Effects.

Lemma extends_silent (text : string) (out : list string) (r : result string) :
  (forall text', r = Ok text' -> exists added, text' = text ++ added) ->
  extends text out (out, r).
Proof.
  intros H. split; [|exact H].
  exists []. split; [now rewrite app_nil_r|constructor].
Qed.

Lemma extends_raise (text : string) (out : list string) (lines : list string)
    (e : exn) :
  Forall (fun line => prefix warning_prefix line = true) lines ->
  extends text out ((out ++ lines)%list, Raise e).
Proof.
  intros H. split; [now exists lines|]. discriminate.
Qed.

Lemma format_fields_extends (text : string) (s : value) (text' : string) :
  format_fields text s = Ok text' -> exists added, text' = text ++ added.
Proof.
  unfold format_fields.
  destruct (getitem s "title") as [title|]; [|discriminate].
  destruct (getitem s "url") as [url|]; [|discriminate].
  destruct (getitem s "content") as [content|]; [|discriminate].
  cbn [bind]. intros [= <-]. rewrite !append_assoc. eauto.
Qed.

(** Lines 45-47, once the raw content is resolved. *)
Lemma limit_and_append_extends (text : string) (raw : value) (max : Z)
    (out lines : list string) :
  Forall (fun line => prefix warning_prefix line = true) lines ->
  extends text out
    ((n <~ lift (len raw) ;;
      raw_content <~ (if n >? max * 4
                      then lift (slice_concat raw (max * 4) truncation_marker)
                      else ret raw) ;;
      ret (text ++ "Full source content limited to " ++ str (VInt max)
             ++ " tokens: " ++ str raw_content ++ nl ++ nl))
       (out ++ lines)%list).
Proof.
  intros Hl. unfold iobind, lift.
  destruct (len raw) as [n|e]; [|now apply extends_raise].
  destruct (n >? max * 4).
  - destruct (slice_concat raw (max * 4) truncation_marker) as [cut|e];
      [|now apply extends_raise].
    split; [now exists lines|]. cbn [ret snd]. intros text' [= <-]. eauto.
  - split; [now exists lines|]. cbn [ret snd]. intros text' [= <-]. eauto.
Qed.

Lemma format_raw_content_extends (text : string) (s : value) (max : Z)
    (out : list string) :
  extends text out (format_raw_content text s max out).
Proof.
  unfold format_raw_content.
  unfold iobind at 1. unfold lift at 1.
  destruct (get s "raw_content" (VStr EmptyString)) as [raw|e];
    [|apply extends_silent; discriminate].
  unfold iobind at 1.
  assert (Hnil : Forall (fun line => prefix warning_prefix line = true) [])
    by constructor.
  pose proof (fun raw =>
                limit_and_append_extends text raw max out [] Hnil) as Hplain.
  rewrite app_nil_r in Hplain.
  destruct raw; try (cbn [ret]; apply Hplain).
  unfold iobind at 1. unfold lift at 1.
  destruct (getitem s "url") as [url|e];
    [|apply extends_silent; discriminate].
  unfold iobind at 1. cbn [print ret].
  apply limit_and_append_extends.
  constructor; [|constructor]. apply prefix_append.
Qed.

Lemma extends_trans (text text' : string) (out : list string)
    (first : list string * result string)
    (next : string -> list string -> list string * result string) :
  extends text out first ->
  (forall text' out', (exists added, text' = text ++ added) ->
                      extends text' out' (next text' out')) ->
  extends text out
    (match first with
     | (out', Ok text') => next text' out'
     | (out', Raise e) => (out', Raise e)
     end).
Proof.
  intros [(lines & Hout & Hl) Hext] Hnext.
  destruct first as [out' [t|e]]; cbn [fst snd] in *.
  - destruct (Hext t eq_refl) as (added & ->).
    destruct (Hnext (text ++ added) out' (ex_intro _ added eq_refl))
      as [(lines' & Hout' & Hl') Hext'].
    split.
    + exists (lines ++ lines')%list. split.
      * rewrite Hout', Hout. now rewrite app_assoc.
      * apply Forall_app. now split.
    + intros t' Ht'. destruct (Hext' t' Ht') as (added' & ->).
      exists (added ++ added'). now rewrite append_assoc.
  - split; [now exists lines|]. discriminate.
Qed.

Lemma format_source_extends (text : string) (s : value) (max : Z)
    (include_raw_content : bool) (out : list string) :
  extends text out (format_source text s max include_raw_content out).
Proof.
  unfold format_source, iobind, lift.
  destruct (format_fields text s) as [text1|e] eqn:E;
    [|apply extends_silent; discriminate].
  destruct (format_fields_extends text s text1 E) as (added & ->).
  destruct include_raw_content.
  - destruct (format_raw_content_extends (text ++ added) s max out)
      as [Hout Hext].
    split; [exact Hout|].
    intros t Ht. destruct (Hext t Ht) as (added' & ->).
    exists (added ++ added'). now rewrite append_assoc.
  - apply extends_silent. cbn [ret]. intros t [= <-]. eauto.
Qed.

Lemma format_loop_extends (sources : list value) (max : Z)
    (include_raw_content : bool) :
  forall (text : string) (out : list string),
    extends text out (format_loop text sources max include_raw_content out).
Proof.
  induction sources as [|s rest IH]; intros text out; cbn [format_loop].
  - apply extends_silent. intros t [= <-]. exists EmptyString.
    now rewrite append_nil_r.
  - unfold iobind. apply (extends_trans text text).
    + apply format_source_extends.
    + intros text' out' _. apply IH.
Qed.

Lemma format_loop_silent (sources : list value) (max : Z) :
  forall (text : string) (out : list string),
    fst (format_loop text sources max false out) = out.
Proof.
  induction sources as [|s rest IH]; intros text out; cbn [format_loop];
    [reflexivity|].
  unfold iobind, format_source, lift.
  destruct (format_fields text s) as [text'|e]; cbn [ret]; [apply IH|].
  reflexivity.
Qed.

Lemma strip_header (added : string) :
  exists rest, strip (header ++ added) = "Sources:" ++ rest.
Proof.
  unfold strip.
  change (lstrip (header ++ added)) with (header ++ added).
  change (header ++ added) with ("Sources:" ++ nl ++ nl ++ added).
  cbn [append].
  rewrite !rstrip_cons by reflexivity. eauto.
Qed.

End Effects.

(** X5.  Whatever the input, when the call returns, the text begins with
    [Sources:] and neither of its ends is a whitespace character. *)
Theorem returned_text_begins_with_Sources (search_response : value) (max : Z)
    (include_raw_content : bool) (out out' : list string) (text : string) :
  deduplicate_and_format_sources search_response max include_raw_content out
  = (out', Ok text) ->
  prefix "Sources:" text = true /\ trimmed text.
Proof.
  unfold deduplicate_and_format_sources, iobind, lift.
  destruct (normalize search_response) as [sources_list|e]; [|discriminate].
  destruct (deduplicate sources_list) as [unique_sources|e]; [|discriminate].
  unfold format, iobind.
  destruct (format_loop_extends (map snd unique_sources) max
              include_raw_content header out) as [_ Hext].
  destruct (format_loop header (map snd unique_sources) max
              include_raw_content out) as [out1 [text1|e]]; [|discriminate].
  cbn [ret]. intros [= _ <-].
  destruct (Hext text1 eq_refl) as (added & ->).
  split; [|apply strip_trimmed].
  destruct (strip_header added) as (rest & ->). apply prefix_append.
Qed.

Lemma returned_text_begins_with_Sources_witness :
  deduplicate_and_format_sources two_responses 5 false []
  = ([], Ok (strip (header ++ fields_block source_A
                      ++ fields_block source_B)))
  /\ prefix "Sources:" (strip (header ++ fields_block source_A
                                 ++ fields_block source_B)) = true.
Proof.
  assert (H : deduplicate_and_format_sources two_responses 5 false []
              = ([], Ok (strip (header ++ fields_block source_A
                                  ++ fields_block source_B))))
    by reflexivity.
  split; [exact H|].
  exact (proj1 (returned_text_begins_with_Sources _ _ _ _ _ _ H)).
Defined.

(** X6.  With [include_raw_content] unset the call prints nothing, whatever
    the input and whether it returns or raises. *)
Theorem nothing_printed_without_raw_content (search_response : value)
    (max : Z) (out : list string) :
  fst (deduplicate_and_format_sources search_response max false out) = out.
Proof.
  unfold deduplicate_and_format_sources, iobind, lift.
  destruct (normalize search_response) as [sources_list|e]; [|reflexivity].
  destruct (deduplicate sources_list) as [unique_sources|e]; [|reflexivity].
  unfold format, iobind.
  pose proof (format_loop_silent (map snd unique_sources) max header out)
    as H.
  destruct (format_loop header (map snd unique_sources) max false out)
    as [out1 [text1|e]]; exact H.
Qed.

(** X7.  Whatever the input, the budget and the flag, and whether the call
    returns or raises, every call of [print] it makes writes a text that
    begins with [Warning: No raw_content found for source ] (the url that
    follows may itself hold newlines). *)
Theorem only_warnings_are_printed (search_response : value) (max : Z)
    (include_raw_content : bool) (out : list string) :
  exists lines : list string,
    fst (deduplicate_and_format_sources search_response max
           include_raw_content out)
    = (out ++ lines)%list
    /\ Forall (fun line =>
                 prefix "Warning: No raw_content found for source " line
                 = true) lines.
Proof.
  unfold deduplicate_and_format_sources, iobind, lift.
  assert (Hnone : exists lines : list string,
             out = (out ++ lines)%list
             /\ Forall (fun line => prefix warning_prefix line = true) lines)
    by (exists []; split; [now rewrite app_nil_r|constructor]).
  destruct (normalize search_response) as [sources_list|e]; [|exact Hnone].
  destruct (deduplicate sources_list) as [unique_sources|e]; [|exact Hnone].
  unfold format, iobind.
  destruct (format_loop_extends (map snd unique_sources) max
              include_raw_content header out) as [Hout _].
  destruct (format_loop header (map snd unique_sources) max
              include_raw_content out) as [out1 [text1|e]]; exact Hout.
Qed.

Section Edges.

Lemma first_chars_short (n : nat) (s : string) :
  (String.length (first_chars n s) <= n)%nat.
Proof.
  revert s. induction n as [|n IH]; intros [|c s]; simpl; try lia.
  specialize (IH s). lia.
Qed.

Lemma limit_raw_bound (max : Z) (raw : string) :
  0 <= max ->
  Z.of_nat (String.length (limit_raw max raw)) <= max * 4 + 15.
Proof.
  intros Hmax. unfold limit_raw, slice_to.
  destruct (Z.gtb_spec (Z.of_nat (String.length raw)) (max * 4)); [|lia].
  rewrite substring_first_chars, length_append.
  pose proof (first_chars_short
                (slice_stop (String.length raw) (max * 4)) raw) as Hle.
  unfold slice_stop in *.
  destruct (Z.ltb_spec (max * 4) 0); [lia|].
  change (String.length truncation_marker) with 15%nat. lia.
Qed.

Lemma limit_raw_negative (max : Z) (raw : string) :
  max < 0 ->
  limit_raw max raw
  = first_chars (Z.to_nat (Z.of_nat (String.length raw) + max * 4)) raw
    ++ "... [truncated]".
Proof.
  intros Hmax. unfold limit_raw, slice_to, slice_stop.
  destruct (Z.gtb_spec (Z.of_nat (String.length raw)) (max * 4)); [|lia].
  destruct (Z.ltb_spec (max * 4) 0); [|lia].
  rewrite substring_first_chars. fold truncation_marker.
  do 2 f_equal. lia.
Qed.

Lemma format_source_text (text : string) (s : value) (max : Z)
    (out : list string) :
  is_search_result s = true ->
  snd (format_source text s max true out)
  = Ok (text ++ fields_block s ++ raw_heading max
          ++ limit_raw max (resolved_raw s) ++ nl ++ nl).
Proof.
  intros H. rewrite (format_source_ok _ _ _ _ _ H). cbn [snd].
  unfold block, raw_section, emitted_raw.
  rewrite ?append_assoc. reflexivity.
Qed.

Lemma format_loop_app (before after : list value) (max : Z)
    (include_raw_content : bool) :
  forall (text : string) (out : list string),
    format_loop text (before ++ after) max include_raw_content out
    = match format_loop text before max include_raw_content out with
      | (out', Ok text') =>
          format_loop text' after max include_raw_content out'
      | (out', Raise e) => (out', Raise e)
      end.
Proof.
  induction before as [|s before IH]; intros text out; [reflexivity|].
  cbn [app format_loop]. unfold iobind.
  destruct (format_source text s max include_raw_content out)
    as [out1 [text1|e]]; [apply IH|reflexivity].
Qed.

Lemma dedupe_loop_app (before after : list value) :
  forall unique_sources : url_dict,
    dedupe_loop (before ++ after) unique_sources
    = (kept <- dedupe_loop before unique_sources ;; dedupe_loop after kept).
Proof.
  induction before as [|s before IH]; intros unique_sources; [reflexivity|].
  cbn [app dedupe_loop].
  destruct (getitem s "url") as [url|e]; [|reflexivity]. cbn [bind].
  destruct (hashable url); [|reflexivity].
  destruct (contains url unique_sources); apply IH.
Qed.

Lemma bullet_lines_app (before after : list value) :
  bullet_lines (before ++ after)
  = (first <- bullet_lines before ;;
     last <- bullet_lines after ;;
     Ok (first ++ last)%list).
Proof.
  induction before as [|s before IH]; cbn [app bullet_lines bind].
  - now destruct (bullet_lines after).
  - destruct (getitem s "title") as [title|e]; [|reflexivity].
    destruct (getitem s "url") as [url|e]; [|reflexivity].
    cbn [bind]. rewrite IH.
    destruct (bullet_lines before) as [first|e]; [|reflexivity].
    cbn [bind]. now destruct (bullet_lines after).
Qed.

Lemma join_app (sep : string) (first last : list string) :
  first <> [] -> last <> [] ->
  join sep (first ++ last) = join sep first ++ sep ++ join sep last.
Proof.
  unfold join. intros Hf Hl.
  induction first as [|a first IH]; [congruence|].
  destruct first as [|b first].
  - destruct last; [congruence|reflexivity].
  - cbn [app String.concat] in *. rewrite IH by discriminate.
    now rewrite !append_assoc.
Qed.

End Edges.

(** X8.  With [include_raw_content] set and a budget that is not negative,
    the raw content a search result gets after the heading is never longer
    than [max_tokens_per_source * 4] characters and the fifteen of the
    marker. *)
Theorem emitted_raw_content_is_bounded (source : value) (max : Z)
    (text : string) (out : list string) :
  is_search_result source = true ->
  0 <= max ->
  exists emitted : string,
    snd (format_source text source max true out)
    = Ok (text ++ fields_block source ++ raw_heading max ++ emitted
            ++ nl ++ nl)
    /\ Z.of_nat (String.length emitted) <= max * 4 + 15.
Proof.
  intros Hs Hmax. exists (limit_raw max (resolved_raw source)).
  split; [now apply format_source_text|now apply limit_raw_bound].
Qed.

Lemma emitted_raw_content_is_bounded_witness :
  is_search_result source_B = true
  /\ 0 <= 5
  /\ exists emitted : string,
       snd (format_source EmptyString source_B 5 true [])
       = Ok (fields_block source_B ++ raw_heading 5 ++ emitted ++ nl ++ nl)
       /\ Z.of_nat (String.length emitted) <= 35.
Proof.
  split; [reflexivity|]. split; [discriminate|].
  exact (emitted_raw_content_is_bounded source_B 5 EmptyString []
           eq_refl ltac:(discriminate)).
Defined.

(** X9.  With [include_raw_content] set and a negative budget the slice of
    line 46 counts from the end: every search result gets the marker, even
    one whose [raw_content] is empty, [None] or missing, after its raw
    content less its last [4 * |max_tokens_per_source|] characters. *)
Theorem negative_budget_always_truncates (source : value) (max : Z)
    (text : string) (out : list string) :
  is_search_result source = true ->
  max < 0 ->
  snd (format_source text source max true out)
  = Ok (text ++ fields_block source ++ raw_heading max
          ++ first_chars
               (Z.to_nat (Z.of_nat (String.length (resolved_raw source))
                          + max * 4))
               (resolved_raw source)
          ++ "... [truncated]" ++ nl ++ nl).
Proof.
  intros Hs Hmax. rewrite (format_source_text _ _ _ _ Hs).
  rewrite (limit_raw_negative _ _ Hmax). now rewrite !append_assoc.
Qed.

Lemma negative_budget_always_truncates_witness :
  is_search_result source_A = true
  /\ -1 < 0
  /\ snd (format_source EmptyString source_A (-1) true [])
     = Ok (fields_block source_A
             ++ "Full source content limited to -1 tokens: "
             ++ "... [truncated]" ++ nl ++ nl).
Proof.
  split; [reflexivity|]. split; [reflexivity|].
  rewrite (negative_budget_always_truncates source_A (-1) EmptyString []
             eq_refl eq_refl).
  reflexivity.
Defined.

(** X10.  When a source that has no [title] follows search results, the
    formatting of lines 31-49 raises [KeyError] for [title], and what the
    sources before it printed stays printed. *)
Theorem format_stops_at_missing_title (good : list value)
    (d : list (string * value)) (rest : list value) (max : Z)
    (include_raw_content : bool) (out : list string) :
  Forall (fun s => is_search_result s = true) good ->
  lookup "title" d = None ->
  format (good ++ VDict d :: rest) max include_raw_content out
  = ((out ++ printed include_raw_content good)%list,
     Raise (KeyError "title")).
Proof.
  intros Hgood Hd. unfold format, iobind.
  rewrite format_loop_app, (format_loop_ok _ _ _ Hgood).
  cbn [format_loop]. unfold iobind, format_source, lift, format_fields.
  cbn [getitem]. rewrite Hd. reflexivity.
Qed.

Lemma format_stops_at_missing_title_witness :
  Forall (fun s => is_search_result s = true) [source_A2]
  /\ lookup "title" [("url", VStr "u3")] = None
  /\ format ([source_A2] ++ VDict [("url", VStr "u3")] :: [source_B]) 5
       true []
     = (["Warning: No raw_content found for source u1"],
        Raise (KeyError "title")).
Proof.
  assert (H : Forall (fun s => is_search_result s = true) [source_A2])
    by (repeat constructor).
  split; [exact H|]. split; [reflexivity|].
  exact (format_stops_at_missing_title [source_A2] [("url", VStr "u3")]
           [source_B] 5 true [] H eq_refl).
Defined.

(** X11.  When a record that has no [url] follows records with text fields,
    the call raises [KeyError] for [url] from the deduplication of line 28,
    before anything is formatted or printed. *)
Theorem missing_url_raises_before_output (good : list value)
    (d : list (string * value)) (rest : list value) (max : Z)
    (include_raw_content : bool) (out : list string) :
  Forall (fun s => is_source s = true) good ->
  lookup "url" d = None ->
  deduplicate_and_format_sources (response (good ++ VDict d :: rest)) max
    include_raw_content out
  = (out, Raise (KeyError "url")).
Proof.
  intros Hgood Hd. unfold deduplicate_and_format_sources, iobind, lift.
  rewrite normalize_response. unfold deduplicate. cbn [iterate bind].
  rewrite dedupe_loop_app.
  change (@nil (value * value)) with (map entry []).
  rewrite (dedupe_loop_first_occurrences good Hgood []).
  cbn [bind dedupe_loop getitem]. rewrite Hd. reflexivity.
Qed.

Lemma missing_url_raises_before_output_witness :
  Forall (fun s => is_source s = true) [source_A2]
  /\ lookup "url" [("title", VStr "t")] = None
  /\ deduplicate_and_format_sources
       (response ([source_A2] ++ VDict [("title", VStr "t")] :: [])) 5
       true []
     = ([], Raise (KeyError "url")).
Proof.
  assert (H : Forall (fun s => is_source s = true) [source_A2])
    by (repeat constructor).
  split; [exact H|]. split; [reflexivity|].
  exact (missing_url_raises_before_output [source_A2] [("title", VStr "t")]
           [] 5 true [] H eq_refl).
Defined.

(** X12.  [format_sources] returns no partial list: when a result that has
    no [title] follows results with text fields, it raises [KeyError] for
    [title]. *)
Theorem format_sources_missing_title (good : list value)
    (d : list (string * value)) (rest : list value) :
  Forall (fun s => is_source s = true) good ->
  lookup "title" d = None ->
  format_sources (response (good ++ VDict d :: rest))
  = Raise (KeyError "title").
Proof.
  intros Hgood Hd. unfold format_sources, response.
  cbn [getitem lookup String.eqb Ascii.eqb Bool.eqb bind iterate].
  rewrite bullet_lines_app, (bullet_lines_sources good Hgood).
  cbn [bind bullet_lines getitem]. rewrite Hd. reflexivity.
Qed.

Lemma format_sources_missing_title_witness :
  Forall (fun s => is_source s = true) [source_A]
  /\ lookup "title" [("url", VStr "u3")] = None
  /\ format_sources
       (response ([source_A] ++ VDict [("url", VStr "u3")] :: [source_B]))
     = Raise (KeyError "title").
Proof.
  assert (H : Forall (fun s => is_source s = true) [source_A])
    by (repeat constructor).
  split; [exact H|]. split; [reflexivity|].
  exact (format_sources_missing_title [source_A] [("url", VStr "u3")]
           [source_B] H eq_refl).
Defined.

(** X13.  [format_sources] of two non-empty lists of results put together
    is the text of the first, a newline, and the text of the second. *)
Theorem format_sources_concatenates (first last : list value) :
  Forall (fun s => is_source s = true) first ->
  Forall (fun s => is_source s = true) last ->
  first <> [] -> last <> [] ->
  exists text_first text_last : string,
    format_sources (response first) = Ok text_first
    /\ format_sources (response last) = Ok text_last
    /\ format_sources (response (first ++ last))
       = Ok (text_first ++ nl ++ text_last).
Proof.
  intros Hf Hl Hfn Hln.
  assert (Hall : Forall (fun s => is_source s = true) (first ++ last))
    by (apply Forall_app; now split).
  assert (Hfs : forall results,
             Forall (fun s => is_source s = true) results ->
             format_sources (response results)
             = Ok (join nl (map bullet results))).
  { intros results H. unfold format_sources, response.
    cbn [getitem lookup String.eqb Ascii.eqb Bool.eqb bind iterate].
    now rewrite (bullet_lines_sources results H). }
  exists (join nl (map bullet first)), (join nl (map bullet last)).
  rewrite !Hfs by assumption. repeat split.
  rewrite map_app, join_app; [reflexivity| |].
  - destruct first; [congruence|discriminate].
  - destruct last; [congruence|discriminate].
Qed.

Lemma format_sources_concatenates_witness :
  Forall (fun s => is_source s = true) [source_A]
  /\ Forall (fun s => is_source s = true) [source_A2; source_B]
  /\ exists text_first text_last : string,
       format_sources (response [source_A]) = Ok text_first
       /\ format_sources (response [source_A2; source_B]) = Ok text_last
       /\ format_sources (response ([source_A] ++ [source_A2; source_B]))
          = Ok (text_first ++ nl ++ text_last).
Proof.
  assert (Hf : Forall (fun s => is_source s = true) [source_A])
    by (repeat constructor).
  assert (Hl : Forall (fun s => is_source s = true) [source_A2; source_B])
    by (repeat constructor).
  split; [exact Hf|]. split; [exact Hl|].
  apply (format_sources_concatenates _ _ Hf Hl); discriminate.
Defined.

(* ================================================================== *)
(** ** Properties of [searxng_search] *)
(* ================================================================== *)

Section Searxng.

Variable fetch : nat -> value -> fetch_reply.

Lemma transform_result_dict (i : nat) (include_raw_content : bool)
    (d : list (string * value)) (out : list string) :
  transform_result fetch i include_raw_content (VDict d) out
  = ((out ++ fetch_failure fetch i include_raw_content d)%list,
     Ok (formatted_hit fetch i include_raw_content d)).
Proof.
  unfold transform_result, iobind, lift, get, formatted_hit,
    fetched_raw_content, fetch_failure, field_or_empty.
  destruct (lookup "title" d), (lookup "url" d), (lookup "content" d);
    destruct include_raw_content; cbn [ret];
    try (now rewrite app_nil_r);
    match goal with
    | |- context [fetch i ?u] => destruct (fetch i u) as [message|code text]
    end;
    try reflexivity;
    destruct (code =? 200); cbn; now rewrite app_nil_r.
Qed.

Lemma transform_results_dicts (include_raw_content : bool)
    (ds : list (list (string * value))) :
  forall (i : nat) (formatted_results : list value) (out : list string),
    transform_results fetch i include_raw_content (map VDict ds)
      formatted_results out
    = ((out ++ failures_from fetch i include_raw_content ds)%list,
       Ok (formatted_results
           ++ formatted_from fetch i include_raw_content ds)%list).
Proof.
  induction ds as [|d ds IH]; intros i formatted_results out;
    cbn [map transform_results failures_from formatted_from].
  - unfold ret. now rewrite !app_nil_r.
  - unfold iobind. rewrite transform_result_dict, IH.
    now rewrite <- !app_assoc.
Qed.

(** The call on a body whose [results] is a list of dicts. *)
Lemma searxng_search_hits (b : list (string * value))
    (ds : list (list (string * value))) (include_raw_content : bool)
    (max_results : Z) (out : list string) :
  lookup "results" b = Some (VList (map VDict ds)) ->
  searxng_search fetch (Body (VDict b)) include_raw_content max_results out
  = ((out ++ failures_from fetch 0 include_raw_content
               (firstn (slice_stop (List.length ds) max_results) ds))%list,
     Ok (response
           (formatted_from fetch 0 include_raw_content
              (firstn (slice_stop (List.length ds) max_results) ds)))).
Proof.
  intros Hb. unfold searxng_search, iobind, lift, get. rewrite Hb.
  cbn [slice_items]. rewrite length_map, firstn_map.
  rewrite transform_results_dicts. reflexivity.
Qed.

Lemma formatted_from_length (include_raw_content : bool)
    (ds : list (list (string * value))) (i : nat) :
  List.length (formatted_from fetch i include_raw_content ds)
  = List.length ds.
Proof.
  revert i. induction ds as [|d ds IH]; intros i; simpl; [reflexivity|].
  now rewrite IH.
Qed.

Lemma formatted_from_nth (include_raw_content : bool)
    (ds : list (list (string * value))) :
  forall (i k : nat) (d : list (string * value)),
    nth_error ds k = Some d ->
    nth_error (formatted_from fetch i include_raw_content ds) k
    = Some (formatted_hit fetch (i + k) include_raw_content d).
Proof.
  induction ds as [|d0 ds IH]; intros i k d; [now destruct k|].
  destruct k as [|k]; cbn [nth_error formatted_from].
  - intros [= ->]. now rewrite Nat.add_0_r.
  - intros H. rewrite (IH (S i) k d H). do 2 f_equal. lia.
Qed.

Lemma formatted_hit_well_formed (i : nat) (include_raw_content : bool)
    (d : list (string * value)) :
  well_formed_source (formatted_hit fetch i include_raw_content d) = true.
Proof.
  unfold formatted_hit, fetched_raw_content.
  destruct include_raw_content; [|reflexivity].
  destruct (fetch i (field_or_empty "url" d)) as [message|code text];
    [reflexivity|].
  now destruct (code =? 200).
Qed.

Lemma transform_result_well_formed (i : nat) (include_raw_content : bool)
    (result : value) (out out' : list string) (formatted_result : value) :
  transform_result fetch i include_raw_content result out
  = (out', Ok formatted_result) ->
  well_formed_source formatted_result = true.
Proof.
  destruct result as [| | | | |d];
    try (unfold transform_result, iobind, lift, get; discriminate).
  rewrite transform_result_dict. intros [= _ <-].
  apply formatted_hit_well_formed.
Qed.

Lemma transform_results_well_formed (include_raw_content : bool)
    (results : list value) :
  forall (i : nat) (formatted_results : list value) (out out' : list string)
         (returned : list value),
    Forall (fun f => well_formed_source f = true) formatted_results ->
    transform_results fetch i include_raw_content results formatted_results
      out
    = (out', Ok returned) ->
    Forall (fun f => well_formed_source f = true) returned.
Proof.
  induction results as [|result rest IH];
    intros i formatted_results out out' returned Hacc;
    cbn [transform_results].
  - unfold ret. now intros [= _ <-].
  - unfold iobind.
    destruct (transform_result fetch i include_raw_content result out)
      as [out1 [formatted_result|e]] eqn:E; [|discriminate].
    apply IH. apply Forall_app. split; [assumption|].
    constructor; [|constructor].
    now apply (transform_result_well_formed _ _ _ _ _ _ E).
Qed.

Lemma is_hit_search_result (i : nat) (include_raw_content : bool)
    (d : list (string * value)) :
  is_hit d = true ->
  is_search_result (formatted_hit fetch i include_raw_content d) = true.
Proof.
  unfold is_hit, text_or_missing, formatted_hit, fetched_raw_content,
    field_or_empty.
  destruct (lookup "title" d) as [[]|], (lookup "url" d) as [[]|],
    (lookup "content" d) as [[]|]; try discriminate; intros _;
    (destruct include_raw_content; [|reflexivity]);
    match goal with
    | |- context [fetch i ?u] => destruct (fetch i u) as [message|code text]
    end;
    try reflexivity; now destruct (code =? 200).
Qed.

Lemma formatted_from_search_results (include_raw_content : bool)
    (ds : list (list (string * value))) :
  Forall (fun d => is_hit d = true) ds ->
  forall i : nat,
    Forall (fun s => is_search_result s = true)
      (formatted_from fetch i include_raw_content ds).
Proof.
  induction 1 as [|d ds Hd _ IH]; intros i; cbn [formatted_from];
    constructor; [now apply is_hit_search_result|apply IH].
Qed.

End Searxng.

Section SearxngMore.

Variable fetch : nat -> value -> fetch_reply.

Lemma transform_results_Forall (P : value -> Prop)
    (include_raw_content : bool) :
  (forall i d, P (formatted_hit fetch i include_raw_content d)) ->
  forall (results : list value) (i : nat) (formatted_results : list value)
         (out out' : list string) (returned : list value),
    Forall P formatted_results ->
    transform_results fetch i include_raw_content results formatted_results
      out
    = (out', Ok returned) ->
    Forall P returned.
Proof.
  intros HP. induction results as [|result rest IH];
    intros i formatted_results out out' returned Hacc;
    cbn [transform_results].
  - unfold ret. now intros [= _ <-].
  - unfold iobind.
    destruct result as [| | | | |d];
      try (unfold transform_result, iobind, lift, get; discriminate).
    rewrite transform_result_dict. apply IH.
    apply Forall_app. split; [assumption|]. constructor; [apply HP|constructor].
Qed.

Lemma transform_results_silent (results : list value) :
  forall (i : nat) (formatted_results : list value) (out : list string),
    fst (transform_results fetch i false results formatted_results out) = out.
Proof.
  induction results as [|result rest IH]; intros i formatted_results out;
    cbn [transform_results]; [reflexivity|].
  unfold iobind.
  destruct result as [| | | | |d];
    try (unfold transform_result, iobind, lift, get; reflexivity).
  rewrite transform_result_dict. cbn [fetch_failure].
  rewrite app_nil_r. apply IH.
Qed.

End SearxngMore.

Lemma transform_results_any_network (fetch1 fetch2 : nat -> value -> fetch_reply)
    (results : list value) :
  forall (i : nat) (formatted_results : list value) (out : list string),
    transform_results fetch1 i false results formatted_results out
    = transform_results fetch2 i false results formatted_results out.
Proof.
  induction results as [|result rest IH]; intros i formatted_results out;
    cbn [transform_results]; [reflexivity|].
  unfold iobind.
  destruct result as [| | | | |d];
    try (unfold transform_result, iobind, lift, get; reflexivity).
  rewrite !transform_result_dict. cbn [fetch_failure].
  change (formatted_hit fetch1 i false d) with (formatted_hit fetch2 i false d).
  apply IH.
Qed.

(** X14.  When the search request fails, [searxng_search] prints the error
    and returns a response with no result, so that formatting what it
    returns gives [Sources:] and raises nothing, whatever the network, the
    flags and the budgets. *)
Theorem failed_search_formats_to_header (fetch : nat -> value -> fetch_reply)
    (message : string) (include_fetch : bool) (max_results max : Z)
    (include_raw_content : bool) (out : list string) :
  (search_response <~ searxng_search fetch (Failed message) include_fetch
                        max_results ;;
   deduplicate_and_format_sources search_response max include_raw_content)
    out
  = ((out ++ [("Error searching SearxNG: " ++ message)%string])%list,
     Ok "Sources:").
Proof. reflexivity. Qed.

(** X15.  On a body whose [results] is a list of dicts, [searxng_search]
    returns [min(max_results, n)] results of the [n] when [max_results] is
    not negative; a negative [max_results] drops that many results from the
    end instead. *)
Theorem searxng_result_count (fetch : nat -> value -> fetch_reply)
    (b : list (string * value)) (ds : list (list (string * value)))
    (include_raw_content : bool) (max_results : Z) (out : list string) :
  lookup "results" b = Some (VList (map VDict ds)) ->
  exists formatted_results : list value,
    snd (searxng_search fetch (Body (VDict b)) include_raw_content
           max_results out)
    = Ok (VDict [("results", VList formatted_results)])
    /\ (0 <= max_results ->
        Z.of_nat (List.length formatted_results)
        = Z.min max_results (Z.of_nat (List.length ds)))
    /\ (max_results < 0 ->
        Z.of_nat (List.length formatted_results)
        = Z.max 0 (Z.of_nat (List.length ds) + max_results)).
Proof.
  intros Hb. rewrite (searxng_search_hits fetch b ds _ _ _ Hb). cbn [snd].
  eexists. split; [reflexivity|].
  rewrite formatted_from_length, length_firstn. unfold slice_stop.
  split; intros H.
  - destruct (Z.ltb_spec max_results 0); lia.
  - destruct (Z.ltb_spec max_results 0); lia.
Qed.

Lemma searxng_result_count_witness :
  lookup "results" [("results", VList (map VDict two_hits))]
  = Some (VList (map VDict two_hits))
  /\ exists formatted_results : list value,
       snd (searxng_search one_page
              (Body (VDict [("results", VList (map VDict two_hits))]))
              true 1 [])
       = Ok (VDict [("results", VList formatted_results)])
       /\ Z.of_nat (List.length formatted_results) = 1.
Proof.
  split; [reflexivity|].
  destruct (searxng_result_count one_page
              [("results", VList (map VDict two_hits))] two_hits true 1 []
              eq_refl)
    as (formatted_results & Hr & Hcount & _).
  exists formatted_results. split; [exact Hr|].
  rewrite Hcount by discriminate. reflexivity.
Defined.

(** X16.  Whatever the reply and the network, when [searxng_search] returns
    it returns a dict whose [results] is a list of records, each with the
    four keys [title], [url], [content] and [raw_content], in that order and
    no other, where [raw_content] is a string or [None]. *)
Theorem searxng_results_are_well_formed (fetch : nat -> value -> fetch_reply)
    (reply : http_reply) (include_fetch : bool) (max_results : Z)
    (out out' : list string) (search_response : value) :
  searxng_search fetch reply include_fetch max_results out
  = (out', Ok search_response) ->
  exists formatted_results : list value,
    search_response = VDict [("results", VList formatted_results)]
    /\ Forall (fun f =>
                 exists title url content raw_content,
                   f = VDict [("title", title); ("url", url);
                              ("content", content);
                              ("raw_content", raw_content)]
                   /\ (raw_content = VNone
                       \/ exists text, raw_content = VStr text))
         formatted_results.
Proof.
  intros H. destruct reply as [message|search_results].
  - cbn in H. injection H as _ <-. exists []. split; [reflexivity|constructor].
  - unfold searxng_search, iobind, lift in H.
    destruct (get search_results "results" (VList [])) as [results|e];
      [|discriminate].
    destruct (slice_items results max_results) as [items|e];
      [|discriminate].
    destruct (transform_results fetch 0 include_fetch items [] out)
      as [out1 [formatted_results|e]] eqn:E; [|discriminate].
    cbn [ret] in H. injection H as _ <-.
    exists formatted_results. split; [reflexivity|].
    refine (transform_results_Forall fetch _ include_fetch _ items 0 [] out
              out1 formatted_results (Forall_nil _) E).
    intros i d. unfold formatted_hit. do 4 eexists. split; [reflexivity|].
    unfold fetched_raw_content.
    destruct include_fetch; [|now left].
    destruct (fetch i (field_or_empty "url" d)) as [message|code text];
      [now left|].
    destruct (code =? 200); [right; eauto|now left].
Qed.

Lemma searxng_results_are_well_formed_witness :
  exists formatted_results : list value,
    searxng_search one_page
      (Body (VDict [("results", VList (map VDict two_hits))])) true 3 []
    = (["Failed to fetch raw content for http://b: timed out"],
       Ok (VDict [("results", VList formatted_results)]))
    /\ Forall (fun f =>
                 exists title url content raw_content,
                   f = VDict [("title", title); ("url", url);
                              ("content", content);
                              ("raw_content", raw_content)]
                   /\ (raw_content = VNone
                       \/ exists text, raw_content = VStr text))
         formatted_results.
Proof.
  eexists. split; [reflexivity|].
  destruct (searxng_results_are_well_formed one_page
              (Body (VDict [("results", VList (map VDict two_hits))]))
              true 3 [] _ _ eq_refl)
    as (formatted_results & Heq & Hwf).
  injection Heq as <-. exact Hwf.
Defined.

(** X17.  With [include_raw_content] unset, [searxng_search] does not
    depend on what the pages would answer: under any two networks it prints
    the same lines and returns the same response or raises the same
    exception. *)
Theorem no_page_is_fetched_without_raw_content
    (fetch1 fetch2 : nat -> value -> fetch_reply) (reply : http_reply)
    (max_results : Z) (out : list string) :
  searxng_search fetch1 reply false max_results out
  = searxng_search fetch2 reply false max_results out.
Proof.
  destruct reply as [message|search_results]; [reflexivity|].
  unfold searxng_search, iobind, lift.
  destruct (get search_results "results" (VList [])) as [results|e];
    [|reflexivity].
  destruct (slice_items results max_results) as [items|e]; [|reflexivity].
  now rewrite (transform_results_any_network fetch1 fetch2).
Qed.

(** X18.  With [include_raw_content] unset, a search that got a body prints
    nothing, and when it returns every result has [raw_content] set to
    [None]. *)
Theorem raw_content_is_None_without_fetch (fetch : nat -> value -> fetch_reply)
    (search_results : value) (max_results : Z) (out out' : list string)
    (search_response : value) :
  searxng_search fetch (Body search_results) false max_results out
  = (out', Ok search_response) ->
  out' = out
  /\ exists formatted_results : list value,
       search_response = VDict [("results", VList formatted_results)]
       /\ Forall (fun f => getitem f "raw_content" = Ok VNone)
            formatted_results.
Proof.
  unfold searxng_search, iobind, lift.
  destruct (get search_results "results" (VList [])) as [results|e];
    [|discriminate].
  destruct (slice_items results max_results) as [items|e]; [|discriminate].
  pose proof (transform_results_silent fetch items 0 [] out) as Hout.
  destruct (transform_results fetch 0 false items [] out)
    as [out1 [formatted_results|e]] eqn:E; [|discriminate].
  cbn [ret fst] in *. intros [= <- <-]. split; [exact Hout|].
  exists formatted_results. split; [reflexivity|].
  apply (transform_results_Forall fetch
           (fun f => getitem f "raw_content" = Ok VNone) false
           (fun i d => eq_refl) items 0 [] out out1 formatted_results
           (Forall_nil _) E).
Qed.

Lemma raw_content_is_None_without_fetch_witness :
  exists formatted_results : list value,
    searxng_search one_page
      (Body (VDict [("results", VList (map VDict two_hits))])) false 3 []
    = ([], Ok (VDict [("results", VList formatted_results)]))
    /\ Forall (fun f => getitem f "raw_content" = Ok VNone)
         formatted_results.
Proof.
  eexists. split; [reflexivity|].
  destruct (raw_content_is_None_without_fetch one_page
              (VDict [("results", VList (map VDict two_hits))]) 3 [] _ _
              eq_refl)
    as (_ & formatted_results & Heq & Hnone).
  injection Heq as <-. exact Hnone.
Defined.

Lemma Forall_firstn {A : Type} (P : A -> Prop) (n : nat) (l : list A) :
  Forall P l -> Forall P (firstn n l).
Proof.
  intros H. rewrite <- (firstn_skipn n l) in H.
  apply Forall_app in H. tauto.
Qed.

(** X19.  On a body whose [results] is a list of dicts, with
    [include_raw_content] set, the [i]-th result returned (for [i] below a
    [max_results] that is not negative) carries the [title], [url] and
    [content] of the [i]-th dict of the body, or the empty string for one
    that is missing, and its [raw_content] is the text of the page exactly
    when the request for it answered with status 200, and [None] when it
    answered with another status or raised. *)
Theorem searxng_result_fields (fetch : nat -> value -> fetch_reply)
    (b : list (string * value)) (ds : list (list (string * value)))
    (max_results : Z) (out : list string) (i : nat)
    (d : list (string * value)) :
  lookup "results" b = Some (VList (map VDict ds)) ->
  nth_error ds i = Some d ->
  Z.of_nat i < max_results ->
  exists (formatted_results : list value) (f : value),
    snd (searxng_search fetch (Body (VDict b)) true max_results out)
    = Ok (VDict [("results", VList formatted_results)])
    /\ nth_error formatted_results i = Some f
    /\ getitem f "title" = Ok (field_or_empty "title" d)
    /\ getitem f "url" = Ok (field_or_empty "url" d)
    /\ getitem f "content" = Ok (field_or_empty "content" d)
    /\ getitem f "raw_content"
       = Ok (match fetch i (field_or_empty "url" d) with
             | Fetched status_code text =>
                 if status_code =? 200 then VStr text else VNone
             | FetchFailed _ => VNone
             end).
Proof.
  intros Hb Hd Hi. rewrite (searxng_search_hits fetch b ds _ _ _ Hb).
  cbn [snd]. eexists. exists (formatted_hit fetch i true d).
  split; [reflexivity|]. split.
  - change i with (0 + i)%nat at 2. apply formatted_from_nth.
    rewrite nth_error_firstn.
    assert (Hlt : (i < List.length ds)%nat)
      by (apply nth_error_Some; congruence).
    destruct (Nat.ltb_spec i (slice_stop (List.length ds) max_results));
      [assumption|].
    unfold slice_stop in *. destruct (Z.ltb_spec max_results 0); lia.
  - repeat split.
Qed.

Lemma searxng_result_fields_witness :
  lookup "results" [("results", VList (map VDict two_hits))]
  = Some (VList (map VDict two_hits))
  /\ nth_error two_hits 0
     = Some [("title", VStr "T1"); ("url", VStr "http://a");
             ("score", VInt 2)]
  /\ Z.of_nat 0 < 3
  /\ exists (formatted_results : list value) (f : value),
       snd (searxng_search one_page
              (Body (VDict [("results", VList (map VDict two_hits))]))
              true 3 [])
       = Ok (VDict [("results", VList formatted_results)])
       /\ nth_error formatted_results 0 = Some f
       /\ getitem f "content" = Ok (VStr EmptyString)
       /\ getitem f "raw_content" = Ok (VStr "page").
Proof.
  do 3 (split; [reflexivity|]).
  destruct (searxng_result_fields one_page
              [("results", VList (map VDict two_hits))] two_hits 3 [] 0
              [("title", VStr "T1"); ("url", VStr "http://a");
               ("score", VInt 2)]
              eq_refl eq_refl eq_refl)
    as (formatted_results & f & Hr & Hf & _ & _ & Hc & Hraw).
  exists formatted_results, f. repeat split; assumption.
Defined.

(** X20.  On a body whose [results] is a list of dicts whose [title], [url]
    and [content] are strings or missing, formatting what [searxng_search]
    returns raises nothing, the limit on integer conversions included:
    whatever the network and the two flags, the two calls in a row return a
    text for every budget of at most 4300 digits, and for every budget at
    all when [include_raw_content] is unset. *)
Theorem searxng_feeds_formatter (fetch : nat -> value -> fetch_reply)
    (b : list (string * value)) (ds : list (list (string * value)))
    (include_fetch : bool) (max_results max : Z) (include_raw_content : bool)
    (out : list string) :
  lookup "results" b = Some (VList (map VDict ds)) ->
  Forall (fun d => is_hit d = true) ds ->
  include_raw_content = false \/ Z.abs max < 10 ^ 4300 ->
  exists text : string,
    snd ((search_response <~ searxng_search fetch (Body (VDict b))
                               include_fetch max_results ;;
          Limited.deduplicate_and_format_sources search_response max
            include_raw_content) out)
    = Ok text.
Proof.
  intros Hb Hds Hmax. unfold iobind at 1.
  rewrite (searxng_search_hits fetch b ds _ _ _ Hb).
  pose proof (formatted_from_search_results fetch include_fetch _
                (Forall_firstn _ (slice_stop (List.length ds) max_results)
                   _ Hds) 0) as Hs.
  rewrite (limited_call_on_search_results _ _ _ _ _ (normalize_response _)
             Hs Hmax).
  rewrite (call_on_search_results _ _ _ _ _ (normalize_response _) Hs).
  cbn [snd]. eauto.
Qed.

Lemma searxng_feeds_formatter_witness :
  lookup "results" [("results", VList (map VDict two_hits))]
  = Some (VList (map VDict two_hits))
  /\ Forall (fun d => is_hit d = true) two_hits
  /\ (true = false \/ Z.abs 5 < 10 ^ 4300)
  /\ exists text : string,
       snd ((search_response <~ searxng_search one_page
                                  (Body (VDict [("results",
                                                 VList (map VDict two_hits))]))
                                  true 3 ;;
             Limited.deduplicate_and_format_sources search_response 5 true)
              [])
       = Ok text.
Proof.
  assert (Hds : Forall (fun d => is_hit d = true) two_hits)
    by (repeat constructor).
  assert (Hmax : true = false \/ Z.abs 5 < 10 ^ 4300).
  { right. apply Z.lt_le_trans with (10 ^ 1); [reflexivity|].
    apply Z.pow_le_mono_r; lia. }
  split; [reflexivity|]. split; [exact Hds|]. split; [exact Hmax|].
  exact (searxng_feeds_formatter one_page
           [("results", VList (map VDict two_hits))] two_hits true 3 5 true
           [] eq_refl Hds Hmax).
Defined.

(** X21.  A body that is not a dict is not caught by the handler of line
    122: [searxng_search] raises [AttributeError], having printed nothing. *)
Theorem body_that_is_no_dict_raises (fetch : nat -> value -> fetch_reply)
    (search_results : value) (include_raw_content : bool) (max_results : Z)
    (out : list string) :
  (forall d, search_results <> VDict d) ->
  searxng_search fetch (Body search_results) include_raw_content max_results
    out
  = (out, Raise AttributeError).
Proof.
  intros H. destruct search_results as [| | | | |d]; try reflexivity.
  now destruct (H d).
Qed.

Lemma body_that_is_no_dict_raises_witness :
  (forall d, VList [] <> VDict d)
  /\ searxng_search one_page (Body (VList [])) true 3 []
     = ([], Raise AttributeError).
Proof.
  assert (H : forall d, VList [] <> VDict d) by discriminate.
  split; [exact H|].
  exact (body_that_is_no_dict_raises one_page (VList []) true 3 [] H).
Defined.

(* ================================================================== *)
(** ** Properties of [perplexity_search] *)
(* ================================================================== *)

Section Perplexity.

Variable n : Z.

Lemma append_citations_cited_from (citations : list value) :
  forall (i : Z) (results : list value),
    append_citations n i citations results
    = (results ++ cited_from n i citations)%list.
Proof.
  induction citations as [|citation rest IH]; intros i results;
    cbn [append_citations cited_from].
  - now rewrite app_nil_r.
  - rewrite IH, <- app_assoc. reflexivity.
Qed.

Lemma perplexity_search_answer (d : list (string * value)) (content : value)
    (citations : value) :
  answer_of d content ->
  get (VDict d) "citations" (VList [VStr default_citation]) = Ok citations ->
  perplexity_search (Body (VDict d)) n
  = (url <-- first_item citations ;;
     others <-- items_after_first citations ;;
     Returns (response (answered n url content :: cited_from n 2 others))).
Proof.
  intros (choice & other_choices & message & Hc & Hm & Hcontent) Hcit.
  unfold perplexity_search. unfold getitem at 1. rewrite Hc.
  cbn [builtin obind first_item getitem]. rewrite Hm.
  cbn [builtin obind getitem]. rewrite Hcontent, Hcit. cbn [builtin obind].
  destruct (first_item citations) as [url|e]; [|reflexivity].
  cbn [obind].
  destruct (items_after_first citations) as [others|e]; [|reflexivity].
  cbn [obind]. now rewrite append_citations_cited_from.
Qed.

Lemma cited_from_length (citations : list value) (i : Z) :
  List.length (cited_from n i citations) = List.length citations.
Proof.
  revert i. induction citations as [|c rest IH]; intros i; simpl;
    [reflexivity|].
  now rewrite IH.
Qed.

Lemma cited_from_nth (citations : list value) :
  forall (i : Z) (k : nat) (u : value),
    nth_error citations k = Some u ->
    nth_error (cited_from n i citations) k
    = Some (cited n (i + Z.of_nat k) u).
Proof.
  induction citations as [|c rest IH]; intros i k u; [now destruct k|].
  destruct k as [|k]; cbn [nth_error cited_from].
  - intros [= ->]. now rewrite Z.add_0_r.
  - intros H. rewrite (IH (i + 1) k u H). do 2 f_equal. lia.
Qed.

Lemma cited_from_inv (citations : list value) :
  forall (i : Z) (k : nat) (r : value),
    nth_error (cited_from n i citations) k = Some r ->
    exists u, nth_error citations k = Some u /\ r = cited n (i + Z.of_nat k) u.
Proof.
  intros i k r H.
  destruct (nth_error citations k) as [u|] eqn:E.
  - rewrite (cited_from_nth citations i k u E) in H. injection H as <-.
    eauto.
  - apply nth_error_None in E. rewrite <- (cited_from_length citations i) in E.
    apply nth_error_None in E. congruence.
Qed.

Lemma cited_texts (us : list string) :
  forall i : Z,
    Forall (fun s => is_search_result s = true)
      (cited_from n i (map VStr us))
    /\ map url_of (cited_from n i (map VStr us)) = us
    /\ flat_map warnings_of (cited_from n i (map VStr us))
       = map (fun u => warning_prefix ++ u) us.
Proof.
  induction us as [|u us IH]; intros i; cbn [map cited_from flat_map].
  - repeat split. constructor.
  - destruct (IH (i + 1)) as (Hs & Hu & Hw). repeat split.
    + constructor; [reflexivity|assumption].
    + now rewrite Hu.
    + now rewrite Hw.
Qed.

End Perplexity.

(** X22.  On a body that holds an answer and a non-empty list of citations,
    [perplexity_search] returns one source for each citation, in order: the
    [i]-th has the [i]-th citation as its [url] and is titled with the loop
    count plus one and its rank counted from 1; the first holds the answer as
    [content] and as [raw_content]; each source after it holds the fixed text
    [See above for full content] and a [raw_content] of [None]. *)
Theorem perplexity_one_source_per_citation (d : list (string * value))
    (content : value) (citations : list value)
    (perplexity_search_loop_count : Z) :
  answer_of d content ->
  lookup "citations" d = Some (VList citations) ->
  citations <> [] ->
  exists results : list value,
    perplexity_search (Body (VDict d)) perplexity_search_loop_count
    = Returns (VDict [("results", VList results)])
    /\ List.length results = List.length citations
    /\ (forall i u,
          nth_error citations i = Some u ->
          exists r,
            nth_error results i = Some r
            /\ getitem r "url" = Ok u
            /\ getitem r "title"
               = Ok (VStr ("Perplexity Search "
                           ++ str_of_int (perplexity_search_loop_count + 1)
                           ++ ", Source " ++ str_of_int (Z.of_nat i + 1))))
    /\ (exists r,
          nth_error results 0 = Some r
          /\ getitem r "content" = Ok content
          /\ getitem r "raw_content" = Ok content)
    /\ (forall i r,
          nth_error results (S i) = Some r ->
          getitem r "content" = Ok (VStr "See above for full content")
          /\ getitem r "raw_content" = Ok VNone).
Proof.
  intros Ha Hc Hne. destruct citations as [|u us]; [congruence|].
  exists (answered perplexity_search_loop_count u content
          :: cited_from perplexity_search_loop_count 2 us).
  split.
  { rewrite (perplexity_search_answer _ d content (VList (u :: us)) Ha).
    - reflexivity.
    - cbn [get]. now rewrite Hc. }
  split; [cbn [List.length]; now rewrite cited_from_length|].
  split; [|split].
  - intros [|i] v; cbn [nth_error].
    + intros [= <-]. eexists. repeat split.
    + intros H. eexists. split.
      * apply (cited_from_nth _ us 2 i v H).
      * split; [reflexivity|].
        change (getitem (cited perplexity_search_loop_count
                           (2 + Z.of_nat i) v) "title")
          with (Ok (VStr (source_title perplexity_search_loop_count
                            (2 + Z.of_nat i)))).
        unfold source_title. do 6 f_equal. lia.
  - eexists. repeat split.
  - intros i r H. cbn [nth_error] in H.
    destruct (cited_from_inv _ us 2 i r H) as (v & _ & ->).
    split; reflexivity.
Qed.

Lemma perplexity_one_source_per_citation_witness :
  answer_of (chat_body [VStr "c1"; VStr "c2"]) (VStr "answer")
  /\ lookup "citations" (chat_body [VStr "c1"; VStr "c2"])
     = Some (VList [VStr "c1"; VStr "c2"])
  /\ [VStr "c1"; VStr "c2"] <> []
  /\ exists results : list value,
       perplexity_search (Body (VDict (chat_body [VStr "c1"; VStr "c2"]))) 0
       = Returns (VDict [("results", VList results)])
       /\ List.length results = 2%nat.
Proof.
  assert (Ha : answer_of (chat_body [VStr "c1"; VStr "c2"]) (VStr "answer"))
    by (do 3 eexists; repeat split).
  assert (Hne : [VStr "c1"; VStr "c2"] <> []) by discriminate.
  split; [exact Ha|]. split; [reflexivity|]. split; [exact Hne|].
  destruct (perplexity_one_source_per_citation _ _ _ 0 Ha eq_refl Hne)
    as (results & Hr & Hlen & _).
  exists results. split; [exact Hr|exact Hlen].
Defined.

(** X23.  On a body that holds an answer and no [citations] key,
    [perplexity_search] returns exactly one source, whose [url] is
    [https://perplexity.ai] and which holds the answer as [content] and as
    [raw_content]. *)
Theorem perplexity_default_citation (d : list (string * value))
    (content : value) (perplexity_search_loop_count : Z) :
  answer_of d content ->
  lookup "citations" d = None ->
  perplexity_search (Body (VDict d)) perplexity_search_loop_count
  = Returns
      (VDict [("results",
               VList [VDict [("title",
                              VStr ("Perplexity Search "
                                    ++ str_of_int
                                         (perplexity_search_loop_count + 1)
                                    ++ ", Source 1"));
                             ("url", VStr "https://perplexity.ai");
                             ("content", content);
                             ("raw_content", content)]])]).
Proof.
  intros Ha Hc.
  rewrite (perplexity_search_answer _ d content
             (VList [VStr default_citation]) Ha).
  - reflexivity.
  - cbn [get]. now rewrite Hc.
Qed.

Lemma perplexity_default_citation_witness :
  answer_of [("choices",
              VList [VDict [("message", VDict [("content", VStr "answer")])]])]
    (VStr "answer")
  /\ exists results : list value,
       perplexity_search
         (Body (VDict [("choices",
                        VList [VDict [("message",
                                       VDict [("content", VStr "answer")])]])]))
         2
       = Returns (VDict [("results", VList results)])
       /\ List.length results = 1%nat.
Proof.
  assert (Ha : answer_of
                 [("choices",
                   VList [VDict [("message",
                                  VDict [("content", VStr "answer")])]])]
                 (VStr "answer"))
    by (do 3 eexists; repeat split).
  split; [exact Ha|]. eexists. split.
  - exact (perplexity_default_citation _ _ 2 Ha eq_refl).
  - reflexivity.
Defined.

(** X24.  On a body that holds an answer and an empty list of citations,
    [perplexity_search] raises [IndexError] at [citations[0]]: the answer is
    not returned. *)
Theorem perplexity_no_citation_raises (d : list (string * value))
    (content : value) (perplexity_search_loop_count : Z) :
  answer_of d content ->
  lookup "citations" d = Some (VList []) ->
  perplexity_search (Body (VDict d)) perplexity_search_loop_count
  = Raises IndexError.
Proof.
  intros Ha Hc.
  rewrite (perplexity_search_answer _ d content (VList []) Ha).
  - reflexivity.
  - cbn [get]. now rewrite Hc.
Qed.

Lemma perplexity_no_citation_raises_witness :
  answer_of (chat_body []) (VStr "answer")
  /\ lookup "citations" (chat_body []) = Some (VList [])
  /\ perplexity_search (Body (VDict (chat_body []))) 0 = Raises IndexError.
Proof.
  assert (Ha : answer_of (chat_body []) (VStr "answer"))
    by (do 3 eexists; repeat split).
  split; [exact Ha|]. split; [reflexivity|].
  exact (perplexity_no_citation_raises _ _ 0 Ha eq_refl).
Defined.

(** X25.  On a body whose answer is a string and whose citations are
    pairwise distinct strings, formatting what [perplexity_search] returns
    with [include_raw_content] set raises nothing and prints one warning for
    each citation after the first, in order, and none for the first. *)
Theorem perplexity_sources_warn_after_first (d : list (string * value))
    (content u : string) (us : list string)
    (perplexity_search_loop_count max : Z) (out : list string) :
  answer_of d (VStr content) ->
  lookup "citations" d = Some (VList (map VStr (u :: us))) ->
  NoDup (u :: us) ->
  exists (search_response : value) (text : string),
    perplexity_search (Body (VDict d)) perplexity_search_loop_count
    = Returns search_response
    /\ deduplicate_and_format_sources search_response max true out
       = ((out ++ map (fun citation =>
                         ("Warning: No raw_content found for source "
                          ++ citation)%string) us)%list,
          Ok text).
Proof.
  intros Ha Hc Hnd.
  destruct (cited_texts perplexity_search_loop_count us 2) as (Hs & Hu & Hw).
  set (results := answered perplexity_search_loop_count (VStr u)
                    (VStr content)
                  :: cited_from perplexity_search_loop_count 2 (map VStr us)).
  assert (Hall : Forall (fun s => is_search_result s = true) results)
    by (constructor; [reflexivity|assumption]).
  assert (Hurls : map url_of results = u :: us)
    by (unfold results; cbn [map]; now rewrite Hu).
  exists (response results). eexists. split.
  { rewrite (perplexity_search_answer _ d (VStr content)
               (VList (map VStr (u :: us))) Ha).
    - reflexivity.
    - cbn [get]. now rewrite Hc. }
  rewrite (call_on_search_results _ _ _ _ _ (normalize_response _) Hall).
  rewrite first_occurrences_distinct by (now rewrite Hurls).
  unfold printed, results. cbn [flat_map]. rewrite Hw. reflexivity.
Qed.

Lemma perplexity_sources_warn_after_first_witness :
  answer_of (chat_body (map VStr ["c1"; "c2"; "c3"])) (VStr "answer")
  /\ NoDup ["c1"; "c2"; "c3"]
  /\ exists (search_response : value) (text : string),
       perplexity_search
         (Body (VDict (chat_body (map VStr ["c1"; "c2"; "c3"])))) 0
       = Returns search_response
       /\ deduplicate_and_format_sources search_response 5 true []
          = (["Warning: No raw_content found for source c2";
              "Warning: No raw_content found for source c3"],
             Ok text).
Proof.
  assert (Ha : answer_of (chat_body (map VStr ["c1"; "c2"; "c3"]))
                 (VStr "answer"))
    by (do 3 eexists; repeat split).
  assert (Hnd : NoDup ["c1"; "c2"; "c3"]).
  { repeat constructor; simpl; intuition discriminate. }
  split; [exact Ha|]. split; [exact Hnd|].
  exact (perplexity_sources_warn_after_first _ "answer" "c1" ["c2"; "c3"]
           0 5 [] Ha eq_refl Hnd).
Defined.
